(** * Pygame-Platformer: tilemap engine and physics resolver

    A shallow embedding of [NinjaGame/scripts/Tilemap.py] and of
    [PhysicsEntity] from [NinjaGame/scripts/Entities.py], with the
    properties of the tile grid, the autotiler, the map codec and the
    collision resolver stated and proved over it.

    Conventions of the embedding.
    - Python [int] is [Z].  Python [float] is idealised as an exact
      rational [Q]: rounding of IEEE doubles is not modelled.
    - A Python [dict] is an insertion-ordered association list with
      distinct keys ([Py.dict], [Py.dict_wf]); iteration follows the list.
    - Code that can raise runs in a state-and-exception monad [Py.M]: a
      computation returns its outcome together with the state reached, so
      the effect of a call that raises half-way is visible.
    - A tile record [{'type', 'variant', 'pos'}] is [TileRecord C] with
      [C := Z] for grid tiles and [C := Q] for off-grid decorations.  The
      two-element list or tuple under ['pos'] is a pair.
    - [pygame.Rect] and the [json] codec are libraries: the first is
      modelled by its integer fields, edge assignments and overlap test
      ([Rect]), the second at the level of the decoded document
      ([document]). *)

From Stdlib Require Import ZArith QArith Qround Lqa Lia.
From Stdlib Require Import List String DecimalString Bool Permutation.
Import ListNotations.

Set Implicit Arguments.
Open Scope Z_scope.

(* ================================================================== *)
(** * Python runtime *)
(* ================================================================== *)

Module Py.

(** The exceptions the modelled code can raise. *)
Inductive exn : Type :=
| ZeroDivisionError
| RuntimeError        (* dictionary changed size during iteration *)
| KeyError
| ValueError          (* list.remove(x): x not in list *)
| FileNotFoundError
| JSONDecodeError.

Inductive result (A : Type) : Type :=
| Ok (a : A)
| Raise (e : exn).
Arguments Ok {A} a.
Arguments Raise {A} e.

(** State and exception: the state is returned on both outcomes. *)
Definition M (S A : Type) : Type := S -> result A * S.

Definition ret {S A} (a : A) : M S A := fun s => (Ok a, s).

Definition bind {S A B} (c : M S A) (k : A -> M S B) : M S B :=
  fun s => match c s with
           | (Ok a, s') => k a s'
           | (Raise e, s') => (Raise e, s')
           end.

Definition raise {S A} (e : exn) : M S A := fun s => (Raise e, s).
Definition get {S} : M S S := fun s => (Ok s, s).
Definition put {S} (s : S) : M S unit := fun _ => (Ok tt, s).
Definition modify {S} (f : S -> S) : M S unit := fun s => (Ok tt, f s).

(** A pure computation that may raise, run inside [M]. *)
Definition lift {S A} (r : result A) : M S A := fun s => (r, s).

(** [str(n)] for an [int]: decimal digits with a leading [-] when negative. *)
Definition str (n : Z) : string := NilZero.string_of_int (Z.to_int n).

(** [min(a, b)]: the first argument unless the second is strictly smaller. *)
Definition min (a b : Q) : Q :=
  if Qle_bool a b then a else b.

(** [a < b] on numbers. *)
Definition ltb (a b : Q) : bool := negb (Qle_bool b a).

(** [int(x)] and the coordinate conversion of [pygame.Rect]: truncation
    towards zero. *)
Definition int (x : Q) : Z :=
  if Qle_bool 0 x then Qfloor x else Qceiling x.

(** [x // n] followed by [int(...)]: floor division; raises for [n = 0]. *)
Definition floordiv (x : Q) (n : Z) : result Z :=
  if n =? 0 then Raise ZeroDivisionError
  else Ok (Qfloor (x / inject_Z n)).

(** ** Lists *)

(** [for x in xs: acc = f(acc, x)] with the effects of [f] threaded. *)
Fixpoint for_each {S X A} (f : A -> X -> M S A) (xs : list X) (a : A)
  : M S A :=
  match xs with
  | [] => ret a
  | x :: xs' => bind (f a x) (for_each f xs')
  end.

(** [xs.remove(x)]: drops the first element equal to [x]. *)
Fixpoint list_remove {X} (eqb : X -> X -> bool) (x : X) (xs : list X)
  : option (list X) :=
  match xs with
  | [] => None
  | y :: ys =>
      if eqb y x then Some ys
      else match list_remove eqb x ys with
           | Some ys' => Some (y :: ys')
           | None => None
           end
  end.

(** ** Dictionaries with string keys *)

Definition dict (V : Type) : Type := list (string * V).

Definition dict_keys {V} (d : dict V) : list string := map fst d.

Definition dict_wf {V} (d : dict V) : Prop := NoDup (dict_keys d).

(** [d[k]] / [k in d]. *)
Fixpoint dict_get {V} (k : string) (d : dict V) : option V :=
  match d with
  | [] => None
  | (k', v) :: d' => if String.eqb k' k then Some v else dict_get k d'
  end.

Definition dict_mem {V} (k : string) (d : dict V) : bool :=
  match dict_get k d with Some _ => true | None => false end.

(** [d[k] = v]: overwrites in place, or appends a new entry. *)
Fixpoint dict_set {V} (k : string) (v : V) (d : dict V) : dict V :=
  match d with
  | [] => [(k, v)]
  | (k', v') :: d' =>
      if String.eqb k' k then (k', v) :: d'
      else (k', v') :: dict_set k v d'
  end.

(** [del d[k]]. *)
Fixpoint dict_del {V} (k : string) (d : dict V) : dict V :=
  match d with
  | [] => []
  | (k', v') :: d' =>
      if String.eqb k' k then d' else (k', v') :: dict_del k d'
  end.

(** [for k in d: ...] where the body may mutate [d].  The iterator
    remembers the size [n0] the dictionary had when the loop started and
    checks it at every step, the one that finds the keys exhausted
    included; a different size raises [RuntimeError].  [len] reads the
    current size of the dictionary out of the state, [ks] are the keys
    still to visit. *)
Fixpoint dict_iter {S A} (len : S -> nat) (n0 : nat)
         (f : A -> string -> M S A) (ks : list string) (a : A) : M S A :=
  fun s =>
    if negb (Nat.eqb (len s) n0) then (Raise RuntimeError, s)
    else match ks with
         | [] => (Ok a, s)
         | k :: ks' =>
             match f a k s with
             | (Ok a', s') => dict_iter len n0 f ks' a' s'
             | (Raise e, s') => (Raise e, s')
             end
         end.

End Py.

Notation "x <- c ;; k" := (Py.bind c (fun x => k))
  (at level 61, c at next level, right associativity).
Notation "c ;;; k" := (Py.bind c (fun _ => k))
  (at level 61, right associativity).

(* ================================================================== *)
(** * pygame.Rect *)
(* ================================================================== *)

(** The part of [pygame.Rect] the resolver uses: integer left, top, width
    and height; the virtual attributes [right] and [bottom]; assignment to
    an edge, which moves the rectangle without resizing it; and the
    overlap test [colliderect]. *)
Module Rect.

Record t : Type := mk { x : Z; y : Z; w : Z; h : Z }.

Definition left (r : t) : Z := x r.
Definition top (r : t) : Z := y r.
Definition right (r : t) : Z := x r + w r.
Definition bottom (r : t) : Z := y r + h r.

Definition set_left (r : t) (v : Z) : t := mk v (y r) (w r) (h r).
Definition set_right (r : t) (v : Z) : t := mk (v - w r) (y r) (w r) (h r).
Definition set_top (r : t) (v : Z) : t := mk (x r) v (w r) (h r).
Definition set_bottom (r : t) (v : Z) : t := mk (x r) (v - h r) (w r) (h r).

(** Rectangles of zero width or height collide with nothing; edges that
    only touch do not overlap. *)
Definition colliderect (a b : t) : bool :=
  if (w a =? 0) || (h a =? 0) || (w b =? 0) || (h b =? 0) then false
  else (Z.min (x a) (x a + w a) <? Z.max (x b) (x b + w b))
       && (Z.min (y a) (y a + h a) <? Z.max (y b) (y b + h b))
       && (Z.max (x a) (x a + w a) >? Z.min (x b) (x b + w b))
       && (Z.max (y a) (y a + h a) >? Z.min (y b) (y b + h b)).

End Rect.

(* ================================================================== *)
(** * Tile records *)
(* ================================================================== *)

Record TileRecord (C : Type) : Type := mkTile {
  type : string;
  variant : Z;
  pos : C * C
}.
Arguments mkTile {C} type variant pos.
Arguments type {C} _.
Arguments variant {C} _.
Arguments pos {C} _.

(** [tile['variant'] = v] *)
Definition set_variant {C} (tile : TileRecord C) (v : Z) : TileRecord C :=
  mkTile (type tile) v (pos tile).

(** [tile['pos'] = p] on a copy whose coordinates may change kind. *)
Definition set_pos {C D} (tile : TileRecord C) (p : D * D) : TileRecord D :=
  mkTile (type tile) (variant tile) p.

(** [==] on two decoration records: strings, integers and numbers compared
    by value. *)
Definition offgrid_eqb (a b : TileRecord Q) : bool :=
  String.eqb (type a) (type b) && (variant a =? variant b)
  && Qeq_bool (fst (pos a)) (fst (pos b))
  && Qeq_bool (snd (pos a)) (snd (pos b)).

(** The grid key ["x;y"] of a grid coordinate. *)
Definition loc_key (p : Z * Z) : string :=
  (Py.str (fst p) ++ ";" ++ Py.str (snd p))%string.

(** [(a, b) < (c, d)] on tuples of integers. *)
Definition tuple_ltb (p q : Z * Z) : bool :=
  (fst p <? fst q) || ((fst p =? fst q) && (snd p <? snd q)).

Definition tuple_eqb (p q : Z * Z) : bool :=
  (fst p =? fst q) && (snd p =? snd q).

(** [sorted(...)] on tuples of integers. *)
Fixpoint sorted_insert (p : Z * Z) (l : list (Z * Z)) : list (Z * Z) :=
  match l with
  | [] => [p]
  | q :: l' => if tuple_ltb q p then q :: sorted_insert p l' else p :: q :: l'
  end.

Definition sorted (l : list (Z * Z)) : list (Z * Z) :=
  fold_right sorted_insert [] l.

(** [s.add(p)] on a set kept as a duplicate-free list. *)
Definition set_add (p : Z * Z) (s : list (Z * Z)) : list (Z * Z) :=
  if existsb (tuple_eqb p) s then s else s ++ [p].

(** Equality of two tuples of direction vectors. *)
Fixpoint tuples_eqb (a b : list (Z * Z)) : bool :=
  match a, b with
  | [], [] => true
  | p :: a', q :: b' => tuple_eqb p q && tuples_eqb a' b'
  | _, _ => false
  end.

(** Lookup in a dictionary keyed by tuples of direction vectors. *)
Fixpoint tuples_get (k : list (Z * Z)) (d : list (list (Z * Z) * Z))
  : option Z :=
  match d with
  | [] => None
  | (k', v) :: d' => if tuples_eqb k' k then Some v else tuples_get k d'
  end.

Definition AUTOTILE_MAP : list (list (Z * Z) * Z) :=
  [ (sorted [(1, 0); (0, 1)], 0);
    (sorted [(1, 0); (0, 1); (-1, 0)], 1);
    (sorted [(-1, 0); (0, 1)], 2);
    (sorted [(-1, 0); (0, -1); (0, 1)], 3);
    (sorted [(-1, 0); (0, -1)], 4);
    (sorted [(-1, 0); (0, -1); (1, 0)], 5);
    (sorted [(1, 0); (0, -1)], 6);
    (sorted [(1, 0); (0, -1); (0, 1)], 7);
    (sorted [(1, 0); (-1, 0); (0, 1); (0, -1)], 8) ].

Definition NEIGHBOR_OFFSET : list (Z * Z) :=
  [(-1, 0); (-1, -1); (0, -1); (1, -1);
   (1, 0); (0, 0); (-1, 1); (0, 1); (1, 1)].

Definition PHYSICS_TILES : list string := ["grass"; "stone"]%string.
Definition AUTOTILE_TYPES : list string := ["grass"; "stone"]%string.

(** [s in TYPES] *)
Definition type_in (s : string) (types : list string) : bool :=
  existsb (String.eqb s) types.

(* ================================================================== *)
(** * Persisted map documents *)
(* ================================================================== *)

(** What [json.load] returns for a map file, at the level of the decoded
    value: an object in which each of the three fields the loader reads may
    be absent.  A field that is present holds a value of the shape [Save]
    writes.  The text codec itself is the [json] library's: the document
    [json.dump] writes for a value decodes to that value, integers as
    integers and floats as floats. *)
Record document : Type := mkDoc {
  doc_tilemap : option (Py.dict (TileRecord Z));
  doc_tile_size : option Z;
  doc_offgrid : option (list (TileRecord Q))
}.

(** The contents of a file: text that is not JSON, or a decoded document. *)
Inductive file : Type :=
| NotJson
| Json (d : document).

(** The file system, as far as the codec sees it: the file at each path. *)
Definition filesystem : Type := string -> option file.

Definition write_file (fs : filesystem) (path : string) (f : file)
  : filesystem :=
  fun p => if String.eqb p path then Some f else fs p.

(* ================================================================== *)
(** * class Tilemap *)
(* ================================================================== *)

Module Tilemap.
Import Py.

Record t : Type := mk {
  tile_size : Z;
  tilemap : dict (TileRecord Z);
  offgrid_tiles : list (TileRecord Q)
}.

Definition set_tile_size (self : t) (n : Z) : t :=
  mk n (tilemap self) (offgrid_tiles self).
Definition set_tilemap (self : t) (d : dict (TileRecord Z)) : t :=
  mk (tile_size self) d (offgrid_tiles self).
Definition set_offgrid_tiles (self : t) (l : list (TileRecord Q)) : t :=
  mk (tile_size self) (tilemap self) l.

(** [Tilemap(game, tile_size=16)] *)
Definition init (tile_size : Z) : t := mk tile_size [] [].

(** An extracted record: a decoration copy or a rescaled grid copy. *)
Definition Match : Type := (TileRecord Q + TileRecord Z)%type.

(** [(tile['type'], tile['variant']) in id_pairs] *)
Definition id_match {C} (id_pairs : list (string * Z)) (tile : TileRecord C)
  : bool :=
  existsb (fun p => String.eqb (type tile) (fst p) && (variant tile =? snd p))
          id_pairs.

(** Body of the loop over [self.offgrid_tiles.copy()]. *)
Definition Extract_offgrid (id_pairs : list (string * Z)) (keep : bool)
           (matches : list Match) (tile : TileRecord Q) : M t (list Match) :=
  if id_match id_pairs tile then
    let matches := matches ++ [inl tile] in
    if negb keep then
      self <- get ;;
      match list_remove offgrid_eqb tile (offgrid_tiles self) with
      | Some l => put (set_offgrid_tiles self l) ;;; ret matches
      | None => raise ValueError
      end
    else ret matches
  else ret matches.

(** Body of the loop over [self.tilemap]. *)
Definition Extract_grid (id_pairs : list (string * Z)) (keep : bool)
           (matches : list Match) (location : string) : M t (list Match) :=
  self <- get ;;
  match dict_get location (tilemap self) with
  | None => raise KeyError
  | Some tile =>
      if id_match id_pairs tile then
        let copy :=
          set_pos tile (fst (pos tile) * tile_size self,
                        snd (pos tile) * tile_size self) in
        let matches := matches ++ [inr copy] in
        if negb keep then
          put (set_tilemap self (dict_del location (tilemap self))) ;;;
          ret matches
        else ret matches
      else ret matches
  end.

Definition Extract (id_pairs : list (string * Z)) (keep : bool)
  : M t (list Match) :=
  self <- get ;;
  matches <- for_each (Extract_offgrid id_pairs keep) (offgrid_tiles self) [] ;;
  self <- get ;;
  dict_iter (fun s => List.length (tilemap s)) (List.length (tilemap self))
            (Extract_grid id_pairs keep)
            (dict_keys (tilemap self)) matches.

Definition Tiles_Around (self : t) (p : Q * Q)
  : result (list (TileRecord Z)) :=
  match floordiv (fst p) (tile_size self) with
  | Raise e => Raise e
  | Ok tx =>
      match floordiv (snd p) (tile_size self) with
      | Raise e => Raise e
      | Ok ty =>
          Ok (flat_map
                (fun offset =>
                   let check_location :=
                     loc_key (tx + fst offset, ty + snd offset) in
                   match dict_get check_location (tilemap self) with
                   | Some tile => [tile]
                   | None => []
                   end)
                NEIGHBOR_OFFSET)
      end
  end.

Definition Physics_Rects_Around (self : t) (p : Q * Q)
  : result (list Rect.t) :=
  match Tiles_Around self p with
  | Raise e => Raise e
  | Ok tiles =>
      Ok (flat_map
            (fun tile : TileRecord Z =>
               if type_in (type tile) PHYSICS_TILES then
                 [Rect.mk (fst (pos tile) * tile_size self)
                          (snd (pos tile) * tile_size self)
                          (tile_size self) (tile_size self)]
               else [])
            tiles)
  end.

Definition Save (self : t) (path : string) (fs : filesystem) : filesystem :=
  write_file fs path
    (Json (mkDoc (Some (tilemap self)) (Some (tile_size self))
                 (Some (offgrid_tiles self)))).

(** [map_data[field]] *)
Definition field {A} (v : option A) : M t A :=
  match v with
  | Some a => ret a
  | None => raise KeyError
  end.

Definition Load (path : string) (fs : filesystem) : M t unit :=
  match fs path with
  | None => raise FileNotFoundError
  | Some NotJson => raise JSONDecodeError
  | Some (Json map_data) =>
      d <- field (doc_tilemap map_data) ;;
      modify (fun self => set_tilemap self d) ;;;
      n <- field (doc_tile_size map_data) ;;
      modify (fun self => set_tile_size self n) ;;;
      l <- field (doc_offgrid map_data) ;;
      modify (fun self => set_offgrid_tiles self l)
  end.

(** The solid tile of the cell that contains [p], if there is one; the
    function falls off its end, returning [None], otherwise. *)
Definition Solid_Check (self : t) (p : Q * Q)
  : result (option (TileRecord Z)) :=
  match floordiv (fst p) (tile_size self) with
  | Raise e => Raise e
  | Ok tx =>
      match floordiv (snd p) (tile_size self) with
      | Raise e => Raise e
      | Ok ty =>
          let tile_location := loc_key (tx, ty) in
          match dict_get tile_location (tilemap self) with
          | Some tile =>
              if type_in (type tile) PHYSICS_TILES then Ok (Some tile)
              else Ok None
          | None => Ok None
          end
      end
  end.

(** The four directions [AutoTile] probes, in the order it probes them. *)
Definition SHIFTS : list (Z * Z) := [(1, 0); (-1, 0); (0, -1); (0, 1)].

(** [check_loc in self.tilemap and self.tilemap[check_loc]['type'] == ty] *)
Definition same_type_at (grid : dict (TileRecord Z)) (check_loc : string)
           (ty : string) : bool :=
  match dict_get check_loc grid with
  | Some other => String.eqb (type other) ty
  | None => false
  end.

(** The set [neighbors] built by the inner loop of [AutoTile]. *)
Definition neighbors (grid : dict (TileRecord Z)) (tile : TileRecord Z)
  : list (Z * Z) :=
  fold_left
    (fun nb shift =>
       let check_loc :=
         loc_key (fst (pos tile) + fst shift, snd (pos tile) + snd shift) in
       if same_type_at grid check_loc (type tile) then set_add shift nb
       else nb)
    SHIFTS [].

(** Body of the loop of [AutoTile] for one key. *)
Definition AutoTile_at (_ : unit) (loc : string) : M t unit :=
  self <- get ;;
  match dict_get loc (tilemap self) with
  | None => raise KeyError
  | Some tile =>
      let neighbors := sorted (neighbors (tilemap self) tile) in
      match tuples_get neighbors AUTOTILE_MAP with
      | Some v =>
          if type_in (type tile) AUTOTILE_TYPES then
            put (set_tilemap self
                   (dict_set loc (set_variant tile v) (tilemap self)))
          else ret tt
      | None => ret tt
      end
  end.

Definition AutoTile : M t unit :=
  self <- get ;;
  dict_iter (fun s => List.length (tilemap s)) (List.length (tilemap self))
            AutoTile_at (dict_keys (tilemap self)) tt.

End Tilemap.

(* ================================================================== *)
(** * The editor's mutations of the map (Editor.py) *)
(* ================================================================== *)

Module Editor.

(** Left click on the grid:
    [tilemap[str(x) + ';' + str(y)] = {'type', 'variant', 'pos'}]. *)
Definition place (tile_pos : Z * Z) (ty : string) (v : Z) (tm : Tilemap.t)
  : Tilemap.t :=
  Tilemap.set_tilemap tm
    (Py.dict_set (loc_key tile_pos) (mkTile ty v tile_pos)
                 (Tilemap.tilemap tm)).

(** Right click: [if tile_loc in tilemap: del tilemap[tile_loc]]. *)
Definition remove (tile_pos : Z * Z) (tm : Tilemap.t) : Tilemap.t :=
  if Py.dict_mem (loc_key tile_pos) (Tilemap.tilemap tm) then
    Tilemap.set_tilemap tm
      (Py.dict_del (loc_key tile_pos) (Tilemap.tilemap tm))
  else tm.

(** Left click off the grid: [offgrid_tiles.append({...})]. *)
Definition addDecoration (tile : TileRecord Q) (tm : Tilemap.t) : Tilemap.t :=
  Tilemap.set_offgrid_tiles tm (Tilemap.offgrid_tiles tm ++ [tile]).

Inductive op : Type :=
| Place (tile_pos : Z * Z) (ty : string) (v : Z)
| Remove (tile_pos : Z * Z)
| AddDecoration (tile : TileRecord Q).

Definition apply (tm : Tilemap.t) (o : op) : Tilemap.t :=
  match o with
  | Place p ty v => place p ty v tm
  | Remove p => remove p tm
  | AddDecoration tile => addDecoration tile tm
  end.

(** The map reached from an empty one by a sequence of editor actions. *)
Definition build (tile_size : Z) (ops : list op) : Tilemap.t :=
  fold_left apply ops (Tilemap.init tile_size).

End Editor.

(* ================================================================== *)
(** * class PhysicsEntity *)
(* ================================================================== *)

(** The physics-relevant state of an entity.  The animation object, the
    action name and the sprite offset take no part in [Update]'s effect on
    position, velocity and collision flags and are left out.  [size] is a
    pair of integers, as every caller passes it. *)
Module PhysicsEntity.
Import Py.

Record flags : Type := mkFlags {
  up : bool;
  down : bool;
  right : bool;
  left : bool
}.

Record t : Type := mk {
  pos : Q * Q;
  size : Z * Z;
  velocity : Q * Q;
  collisions : flags;
  flip : bool;
  last_movement : Q * Q
}.

Definition set_pos (self : t) (p : Q * Q) : t :=
  mk p (size self) (velocity self) (collisions self) (flip self)
     (last_movement self).
Definition set_velocity (self : t) (v : Q * Q) : t :=
  mk (pos self) (size self) v (collisions self) (flip self)
     (last_movement self).
Definition set_collisions (self : t) (c : flags) : t :=
  mk (pos self) (size self) (velocity self) c (flip self)
     (last_movement self).
Definition set_flip (self : t) (b : bool) : t :=
  mk (pos self) (size self) (velocity self) (collisions self) b
     (last_movement self).
Definition set_last_movement (self : t) (m : Q * Q) : t :=
  mk (pos self) (size self) (velocity self) (collisions self) (flip self) m.

(** [PhysicsEntity(game, type, pos, size)] *)
Definition init (pos : Q * Q) (size : Z * Z) : t :=
  mk pos size (0, 0)%Q (mkFlags false false false false) false (0, 0)%Q.

(** [pygame.Rect(pos[0], pos[1], size[0], size[1])] *)
Definition Rect (self : t) : Rect.t :=
  Rect.mk (int (fst (pos self))) (int (snd (pos self)))
          (fst (size self)) (snd (size self)).

(** Body of the horizontal loop: [st] is the local [entity_rect] together
    with the entity. *)
Definition collide_x (fm : Q) (st : Rect.t * t) (rect : Rect.t)
  : Rect.t * t :=
  let '(entity_rect, self) := st in
  if Rect.colliderect entity_rect rect then
    let '(entity_rect, self) :=
      if ltb 0 fm then
        (Rect.set_right entity_rect (Rect.left rect),
         set_collisions self
           (let c := collisions self in mkFlags (up c) (down c) true (left c)))
      else (entity_rect, self) in
    let '(entity_rect, self) :=
      if ltb fm 0 then
        (Rect.set_left entity_rect (Rect.right rect),
         set_collisions self
           (let c := collisions self in mkFlags (up c) (down c) (right c) true))
      else (entity_rect, self) in
    (entity_rect,
     set_pos self (inject_Z (Rect.x entity_rect), snd (pos self)))
  else st.

(** Body of the vertical loop. *)
Definition collide_y (fm : Q) (st : Rect.t * t) (rect : Rect.t)
  : Rect.t * t :=
  let '(entity_rect, self) := st in
  if Rect.colliderect entity_rect rect then
    let '(entity_rect, self) :=
      if ltb 0 fm then
        (Rect.set_bottom entity_rect (Rect.top rect),
         set_collisions self
           (let c := collisions self in mkFlags (up c) true (right c) (left c)))
      else (entity_rect, self) in
    let '(entity_rect, self) :=
      if ltb fm 0 then
        (Rect.set_top entity_rect (Rect.bottom rect),
         set_collisions self
           (let c := collisions self in
            mkFlags true (down c) (right c) (left c)))
      else (entity_rect, self) in
    (entity_rect,
     set_pos self (fst (pos self), inject_Z (Rect.y entity_rect)))
  else st.

Definition Update (tilemap : Tilemap.t) (movement : Q * Q) : M t unit :=
  modify (fun self =>
            set_collisions self (mkFlags false false false false)) ;;;
  self <- get ;;
  let frame_movement :=
    (fst movement + fst (velocity self),
     snd movement + snd (velocity self))%Q in
  (* horizontal movement and collision *)
  modify (fun self =>
            set_pos self ((fst (pos self) + fst frame_movement)%Q,
                          snd (pos self))) ;;;
  self <- get ;;
  rects <- lift (Tilemap.Physics_Rects_Around tilemap (pos self)) ;;
  put (snd (fold_left (collide_x (fst frame_movement)) rects
                      (Rect self, self))) ;;;
  (* vertical movement and collision *)
  modify (fun self =>
            set_pos self (fst (pos self),
                          (snd (pos self) + snd frame_movement)%Q)) ;;;
  self <- get ;;
  rects <- lift (Tilemap.Physics_Rects_Around tilemap (pos self)) ;;
  put (snd (fold_left (collide_y (snd frame_movement)) rects
                      (Rect self, self))) ;;;
  (* facing *)
  modify (fun self =>
            if ltb 0 (fst movement) then set_flip self false else self) ;;;
  modify (fun self =>
            if ltb (fst movement) 0 then set_flip self true else self) ;;;
  modify (fun self => set_last_movement self movement) ;;;
  (* gravity, capped at 5 *)
  modify (fun self =>
            set_velocity self
              (fst (velocity self),
               min 5 (snd (velocity self) + (1 # 10))%Q)) ;;;
  modify (fun self =>
            if down (collisions self) || up (collisions self) then
              set_velocity self (fst (velocity self), 0%Q)
            else self).


End PhysicsEntity.

(* ================================================================== *)
(** * Vocabulary of the statements *)
(* ================================================================== *)

(** The four axis-adjacent directions and their vectors. *)
Inductive direction : Type := DRight | DLeft | DUp | DDown.

Definition shift_of (d : direction) : Z * Z :=
  match d with
  | DRight => (1, 0)
  | DLeft => (-1, 0)
  | DUp => (0, -1)
  | DDown => (0, 1)
  end.

(** A set of directions, by membership. *)
Definition direction_set : Type := direction -> bool.

(** The same-type 4-neighbour direction set of a tile in a grid. *)
Definition neighbor_directions (grid : Py.dict (TileRecord Z))
           (tile : TileRecord Z) : direction_set :=
  fun d =>
    Tilemap.same_type_at grid
      (loc_key (fst (pos tile) + fst (shift_of d),
                snd (pos tile) + snd (shift_of d)))
      (type tile).

(** The canonical table of the specification, direction set to variant:
    {right,down} 0; {right,down,left} 1; {left,down} 2; {left,up,down} 3;
    {left,up} 4; {left,up,right} 5; {right,up} 6; {right,up,down} 7;
    {right,left,up,down} 8; no other set is recognised. *)
Definition canonical_variant (s : direction_set) : option Z :=
  match s DRight, s DLeft, s DUp, s DDown with
  | true, false, false, true => Some 0
  | true, true, false, true => Some 1
  | false, true, false, true => Some 2
  | false, true, true, true => Some 3
  | false, true, true, false => Some 4
  | true, true, true, false => Some 5
  | true, false, true, false => Some 6
  | true, false, true, true => Some 7
  | true, true, true, true => Some 8
  | _, _, _, _ => None
  end.

(** What one visit of [AutoTile] makes of a tile, the neighbours being
    read in [grid]. *)
Definition retile (grid : Py.dict (TileRecord Z)) (tile : TileRecord Z)
  : TileRecord Z :=
  match tuples_get (sorted (Tilemap.neighbors grid tile)) AUTOTILE_MAP with
  | Some v =>
      if type_in (type tile) AUTOTILE_TYPES then set_variant tile v else tile
  | None => tile
  end.

Definition retile_entry (grid : Py.dict (TileRecord Z))
           (e : string * TileRecord Z) : string * TileRecord Z :=
  (fst e, retile grid (snd e)).

(** The part of a grid [AutoTile] has no business changing: every key, in
    order, with the type and the position of its record. *)
Definition skeleton (grid : Py.dict (TileRecord Z))
  : list (string * (string * (Z * Z))) :=
  map (fun e => (fst e, (type (snd e), pos (snd e)))) grid.


(** The outcome of a call: the result and the state it leaves. *)
Definition outcome {S A} (c : Py.M S A) (s : S) : Py.result A := fst (c s).
Definition state_after {S A} (c : Py.M S A) (s : S) : S := snd (c s).

(** The world-space rectangle of the grid cell [p] at a tile size. *)
Definition tile_rect (tile_size : Z) (p : Z * Z) : Rect.t :=
  Rect.mk (fst p * tile_size) (snd p * tile_size) tile_size tile_size.

(** A map whose grid holds a single tile, stored under the key of its
    position. *)
Definition single_tile_map (tile_size : Z) (p : Z * Z) (ty : string) (v : Z)
           (offgrid : list (TileRecord Q)) : Tilemap.t :=
  Tilemap.mk tile_size [(loc_key p, mkTile ty v p)] offgrid.

(** The point [p] lies in the rectangle [r], right and bottom edges
    excluded. *)
Definition covers (r : Rect.t) (p : Q * Q) : Prop :=
  (inject_Z (Rect.x r) <= fst p)%Q
  /\ (fst p < inject_Z (Rect.x r + Rect.w r))%Q
  /\ (inject_Z (Rect.y r) <= snd p)%Q
  /\ (snd p < inject_Z (Rect.y r + Rect.h r))%Q.

(** The cell [g] lies in the 3x3 block of cells around the cell [c]. *)
Definition in_block (c g : Z * Z) : Prop :=
  fst c - 1 <= fst g <= fst c + 1 /\ snd c - 1 <= snd g <= snd c + 1.

(** ** The phases of [PhysicsEntity.Update] *)

(** [frame_movement] of a call. *)
Definition frame_movement (movement : Q * Q) (self : PhysicsEntity.t) : Q * Q :=
  (fst movement + fst (PhysicsEntity.velocity self),
   snd movement + snd (PhysicsEntity.velocity self))%Q.

(** The entity after the flags are reset and the horizontal step is taken. *)
Definition moved_x (fm : Q * Q) (self : PhysicsEntity.t) : PhysicsEntity.t :=
  let self0 :=
    PhysicsEntity.set_collisions
      self (PhysicsEntity.mkFlags false false false false) in
  PhysicsEntity.set_pos
    self0 ((fst (PhysicsEntity.pos self0) + fst fm)%Q,
           snd (PhysicsEntity.pos self0)).

(** The entity after the horizontal loop over [rects]. *)
Definition resolved_x (fm : Q * Q) (rects : list Rect.t)
           (self : PhysicsEntity.t) : PhysicsEntity.t :=
  snd (fold_left (PhysicsEntity.collide_x (fst fm)) rects
                 (PhysicsEntity.Rect self, self)).

(** The entity after the vertical step is taken. *)
Definition moved_y (fm : Q * Q) (self : PhysicsEntity.t) : PhysicsEntity.t :=
  PhysicsEntity.set_pos
    self (fst (PhysicsEntity.pos self),
          (snd (PhysicsEntity.pos self) + snd fm)%Q).

(** The entity after the vertical loop over [rects]. *)
Definition resolved_y (fm : Q * Q) (rects : list Rect.t)
           (self : PhysicsEntity.t) : PhysicsEntity.t :=
  snd (fold_left (PhysicsEntity.collide_y (snd fm)) rects
                 (PhysicsEntity.Rect self, self)).

(** The tail of [Update]: facing, last movement, gravity, landing. *)
Definition settled (movement : Q * Q) (self : PhysicsEntity.t)
  : PhysicsEntity.t :=
  let self1 :=
    if Py.ltb 0 (fst movement) then PhysicsEntity.set_flip self false
    else self in
  let self2 :=
    if Py.ltb (fst movement) 0 then PhysicsEntity.set_flip self1 true
    else self1 in
  let self3 := PhysicsEntity.set_last_movement self2 movement in
  let self4 :=
    PhysicsEntity.set_velocity
      self3 (fst (PhysicsEntity.velocity self3),
             Py.min 5 (snd (PhysicsEntity.velocity self3) + (1 # 10))%Q) in
  if PhysicsEntity.down (PhysicsEntity.collisions self4)
     || PhysicsEntity.up (PhysicsEntity.collisions self4)
  then PhysicsEntity.set_velocity
         self4 (fst (PhysicsEntity.velocity self4), 0%Q)
  else self4.

(** What one turn of the horizontal loop makes of the local
    [entity_rect]. *)
Definition clamp_x (fm : Q) (entity_rect rect : Rect.t) : Rect.t :=
  if Rect.colliderect entity_rect rect then
    let entity_rect :=
      if Py.ltb 0 fm then Rect.set_right entity_rect (Rect.left rect)
      else entity_rect in
    if Py.ltb fm 0 then Rect.set_left entity_rect (Rect.right rect)
    else entity_rect
  else entity_rect.

(** What one turn of the vertical loop makes of the local [entity_rect]. *)
Definition clamp_y (fm : Q) (entity_rect rect : Rect.t) : Rect.t :=
  if Rect.colliderect entity_rect rect then
    let entity_rect :=
      if Py.ltb 0 fm then Rect.set_bottom entity_rect (Rect.top rect)
      else entity_rect in
    if Py.ltb fm 0 then Rect.set_top entity_rect (Rect.bottom rect)
    else entity_rect
  else entity_rect.

(** The invariant of the data model: every grid record is stored under
    the key of its own position. *)
Definition grid_consistent (tilemap : Tilemap.t) : Prop :=
  forall loc tile,
    In (loc, tile) (Tilemap.tilemap tilemap) -> loc = loc_key (pos tile).



(** A map none of whose grid records is solid. *)
Definition no_solids (tilemap : Tilemap.t) : Prop :=
  forall loc tile,
    In (loc, tile) (Tilemap.tilemap tilemap) ->
    type_in (type tile) PHYSICS_TILES = false.

(* ================================================================== *)
(** * Example maps and bodies *)
(* ================================================================== *)

Module Examples.
Open Scope string_scope.

(** An L-shape of stone at (0,0), (1,0), (0,1), all of variant 5. *)
Definition l_shape : Tilemap.t :=
  Tilemap.mk 16
    [("0;0", mkTile "stone" 5 (0, 0));
     ("1;0", mkTile "stone" 5 (1, 0));
     ("0;1", mkTile "stone" 5 (0, 1))]
    [].

(** The same entries inserted in another order. *)
Definition l_shape_reordered : Py.dict (TileRecord Z) :=
  [("0;1", mkTile "stone" 5 (0, 1));
   ("0;0", mkTile "stone" 5 (0, 0));
   ("1;0", mkTile "stone" 5 (1, 0))].


Definition spawner_ids : list (string * Z) :=
  [("spawners", 0); ("spawners", 1)].

(** A level whose only spawner sits on the grid. *)
Definition grid_spawner : Tilemap.t :=
  Tilemap.mk 16 [("0;0", mkTile "spawners" 0 (0, 0))] [].

(** A file system holding one map file, which lacks ['tile_size'] and
    ['offgrid']. *)
Definition truncated_doc : document :=
  mkDoc (Some [("7;7", mkTile "grass" 0 (7, 7))]) None None.

Definition fs_truncated : filesystem :=
  write_file (fun _ => None) "data/maps/map.json" (Json truncated_doc).

(** A file system holding one file that is not JSON. *)
Definition fs_garbled : filesystem :=
  write_file (fun _ => None) "data/maps/map.json" NotJson.


(** A body of the player's size at the origin, with a given velocity. *)
Definition small_body (velocity : Q * Q) : PhysicsEntity.t :=
  PhysicsEntity.mk (0, 0)%Q (8, 15) velocity
                   (PhysicsEntity.mkFlags false false false false)
                   false (0, 0)%Q.

(** Two solid tiles side by side, at cells (1,0) and (2,0). *)
Definition two_tiles : Tilemap.t :=
  Tilemap.mk 16
    [("1;0", mkTile "stone" 0 (1, 0)); ("2;0", mkTile "stone" 0 (2, 0))] [].

(** A grid that breaks the invariant of the data model: the tile of cell
    (1,0) is stored under the key of cell (9,9). *)
Definition misfiled : Tilemap.t :=
  Tilemap.mk 16 [("9;9", mkTile "stone" 0 (1, 0))] [].

(** A body one tile in size at the origin with velocity (5,0). *)
Definition runner (tile_size : Z) : PhysicsEntity.t :=
  PhysicsEntity.mk (0, 0)%Q (tile_size, tile_size) (5, 0)%Q
                   (PhysicsEntity.mkFlags false false false false)
                   false (0, 0)%Q.

(** A sequence of editor actions. *)
Definition session : list Editor.op :=
  [Editor.Place (0, 0) "grass" 1;
   Editor.Place (1, 0) "stone" 0;
   Editor.AddDecoration (mkTile "decor" 3 (25 # 2, 40 # 1)%Q);
   Editor.Remove (0, 0);
   Editor.Place (1, 0) "grass" 2].

End Examples.

(* ================================================================== *)
(** * Properties *)
(* ================================================================== *)

Unset Implicit Arguments.


(* ================================================================== *)
(** * Facts about dictionaries *)
(* ================================================================== *)

Section DictFacts.
Import Py.
Variable V : Type.
Implicit Types (d pre suf : dict V) (k : string) (v : V).

Lemma dict_get_In k v d : dict_get k d = Some v -> In (k, v) d.
Proof.
  induction d as [|[k' v'] d IH]; simpl; [discriminate|].
  destruct (String.eqb k' k) eqn:E.
  - apply String.eqb_eq in E. intros [= ->]. left. now subst.
  - intros H. right. auto.
Qed.

Lemma In_dict_get k v d : dict_wf d -> In (k, v) d -> dict_get k d = Some v.
Proof.
  unfold dict_wf, dict_keys.
  induction d as [|[k' v'] d IH]; simpl; [tauto|].
  intros Hnd [Heq|Hin].
  - injection Heq as -> ->. now rewrite String.eqb_refl.
  - inversion Hnd as [|? ? Hk Hd]; subst.
    destruct (String.eqb k' k) eqn:E.
    + apply String.eqb_eq in E. subst k'. exfalso. apply Hk.
      change k with (fst (k, v)). now apply in_map.
    + auto.
Qed.

Lemma dict_get_key_In k d : In k (dict_keys d) -> dict_get k d <> None.
Proof.
  unfold dict_keys.
  induction d as [|[k' v'] d IH]; simpl; [tauto|].
  intros [->|Hin]; [now rewrite String.eqb_refl|].
  destruct (String.eqb k' k); [discriminate|auto].
Qed.

Lemma dict_get_app_skip k pre suf :
  ~ In k (dict_keys pre) -> dict_get k (pre ++ suf) = dict_get k suf.
Proof.
  unfold dict_keys.
  induction pre as [|[k' v'] pre IH]; simpl; [reflexivity|].
  intros Hn. destruct (String.eqb k' k) eqn:E.
  - apply String.eqb_eq in E. tauto.
  - apply IH. tauto.
Qed.

Lemma dict_set_app_skip k v v0 pre suf :
  ~ In k (dict_keys pre) ->
  dict_set k v (pre ++ (k, v0) :: suf) = pre ++ (k, v) :: suf.
Proof.
  unfold dict_keys.
  induction pre as [|[k' v'] pre IH]; simpl.
  - now rewrite String.eqb_refl.
  - intros Hn. destruct (String.eqb k' k) eqn:E.
    + apply String.eqb_eq in E. tauto.
    + f_equal. apply IH. tauto.
Qed.

Lemma dict_set_same k v d : dict_get k d = Some v -> dict_set k v d = d.
Proof.
  induction d as [|[k' v'] d IH]; simpl; [discriminate|].
  destruct (String.eqb k' k).
  - now intros [= ->].
  - intros H. f_equal. auto.
Qed.

Lemma dict_set_keys k v d :
  dict_get k d <> None -> dict_keys (dict_set k v d) = dict_keys d.
Proof.
  unfold dict_keys.
  induction d as [|[k' v'] d IH]; simpl; [congruence|].
  destruct (String.eqb k' k); simpl; [reflexivity|].
  intros H. f_equal. auto.
Qed.

Lemma dict_get_perm k d d' :
  dict_wf d -> Permutation d d' -> dict_get k d = dict_get k d'.
Proof.
  intros Hwf Hp.
  assert (Hwf' : dict_wf d').
  { unfold dict_wf, dict_keys in *.
    eapply Permutation_NoDup; [|exact Hwf]. now apply Permutation_map. }
  destruct (dict_get k d) as [v|] eqn:E.
  - symmetry. apply In_dict_get; [assumption|].
    eapply Permutation_in; [exact Hp|]. now apply dict_get_In.
  - destruct (dict_get k d') as [v'|] eqn:E'; [|reflexivity].
    apply dict_get_In in E'.
    apply Permutation_sym in Hp.
    pose proof (Permutation_in _ Hp E') as Hin.
    apply In_dict_get in Hin; [congruence|assumption].
Qed.

End DictFacts.


(* ================================================================== *)
(** * The autotiler *)
(* ================================================================== *)

Section AutoTileFacts.
Import Py Tilemap.
Implicit Types (g grid : dict (TileRecord Z)) (tile : TileRecord Z).

(** The source's table, keyed by sorted tuples of vectors, is the
    specification's table on direction sets. *)
Lemma AUTOTILE_MAP_canonical grid tile :
  tuples_get (sorted (neighbors grid tile)) AUTOTILE_MAP
  = canonical_variant (neighbor_directions grid tile).
Proof.
  unfold neighbors, canonical_variant, neighbor_directions, SHIFTS, shift_of.
  cbn [fold_left fst snd].
  destruct (same_type_at grid _ (type tile));
    destruct (same_type_at grid _ (type tile));
    destruct (same_type_at grid _ (type tile));
    destruct (same_type_at grid _ (type tile)); reflexivity.
Qed.

Lemma same_type_at_skeleton g g' k ty :
  skeleton g = skeleton g' -> same_type_at g k ty = same_type_at g' k ty.
Proof.
  unfold same_type_at, skeleton.
  revert g'. induction g as [|[k1 t1] g IH]; intros [|[k2 t2] g'];
    simpl; try discriminate; [reflexivity|].
  intros [= -> Hty _ Hrest].
  destruct (String.eqb k2 k); [now rewrite Hty|]. now apply IH.
Qed.

Lemma neighbors_skeleton g g' tile :
  skeleton g = skeleton g' -> neighbors g tile = neighbors g' tile.
Proof.
  intros H. unfold neighbors, SHIFTS. cbn [fold_left].
  now rewrite !(fun k => same_type_at_skeleton g g' k (type tile) H).
Qed.

Lemma retile_skeleton g g' tile :
  skeleton g = skeleton g' -> retile g tile = retile g' tile.
Proof.
  intros H. unfold retile. now rewrite (neighbors_skeleton g g' tile H).
Qed.

Lemma retile_type g tile : type (retile g tile) = type tile.
Proof.
  unfold retile. destruct tuples_get; [|reflexivity].
  now destruct type_in.
Qed.

Lemma retile_pos g tile : pos (retile g tile) = pos tile.
Proof.
  unfold retile. destruct tuples_get; [|reflexivity].
  now destruct type_in.
Qed.

Lemma retile_idem g tile : retile g (retile g tile) = retile g tile.
Proof.
  assert (Hn : forall t', type t' = type tile -> pos t' = pos tile ->
                          neighbors g t' = neighbors g tile).
  { intros t' Ht Hp. unfold neighbors. now rewrite Ht, Hp. }
  unfold retile at 2.
  destruct (tuples_get (sorted (neighbors g tile)) AUTOTILE_MAP) as [v|] eqn:E;
    [destruct (type_in (type tile) AUTOTILE_TYPES) eqn:Ety|].
  - unfold retile. rewrite (Hn (set_variant tile v) eq_refl eq_refl), E.
    cbn [type set_variant]. now rewrite Ety.
  - unfold retile. now rewrite E, Ety.
  - unfold retile. now rewrite E.
Qed.

Lemma skeleton_app g g' : skeleton (g ++ g') = skeleton g ++ skeleton g'.
Proof. apply map_app. Qed.

Lemma skeleton_retiled g0 g : skeleton (map (retile_entry g0) g) = skeleton g.
Proof.
  unfold skeleton. rewrite map_map. apply map_ext. intros [k t].
  unfold retile_entry. cbn [fst snd]. now rewrite retile_type, retile_pos.
Qed.

Lemma skeleton_keys g : map fst (skeleton g) = dict_keys g.
Proof. unfold skeleton, dict_keys. rewrite map_map. now apply map_ext. Qed.

Lemma skeleton_dict_set g loc tile v :
  dict_get loc g = Some tile ->
  skeleton (dict_set loc (set_variant tile v) g) = skeleton g.
Proof.
  unfold skeleton.
  induction g as [|[k t] g IH]; simpl; [discriminate|].
  destruct (String.eqb k loc); simpl.
  - now intros [= ->].
  - intros H. f_equal. auto.
Qed.

Lemma dict_set_length V (d : dict V) k v :
  dict_get k d <> None -> List.length (dict_set k v d) = List.length d.
Proof.
  induction d as [|[k' v'] d IH]; simpl; [congruence|].
  destruct (String.eqb k' k); simpl; [reflexivity|]. intros H. f_equal. auto.
Qed.

Lemma set_tilemap_same (self : t) : set_tilemap self (tilemap self) = self.
Proof. now destruct self. Qed.

(** One visit: the record under [loc] is replaced by its retiling. *)
Lemma AutoTile_at_run (self : t) loc tile :
  dict_get loc (tilemap self) = Some tile ->
  AutoTile_at tt loc self
  = (Ok tt, set_tilemap self
              (dict_set loc (retile (tilemap self) tile) (tilemap self))).
Proof.
  intros Hget. unfold AutoTile_at, bind, get, retile. rewrite Hget.
  destruct tuples_get as [v|];
    [destruct type_in|]; unfold put, ret;
    rewrite ?(dict_set_same _ _ _ _ Hget), ?set_tilemap_same; reflexivity.
Qed.

(** The loop, started after the entries [pre] have been visited. *)
Lemma AutoTile_loop g0 : forall suf pre (self : t),
  tilemap self = pre ++ suf ->
  dict_wf (pre ++ suf) ->
  skeleton (pre ++ suf) = skeleton g0 ->
  dict_iter (fun s => List.length (tilemap s)) (List.length g0)
            AutoTile_at (dict_keys suf) tt self
  = (Ok tt, set_tilemap self (pre ++ map (retile_entry g0) suf)).
Proof.
  induction suf as [|[k tile] suf IH]; intros pre self Hself Hwf Hsk.
  - simpl. rewrite Hself.
    assert (Hlen : List.length (pre ++ []) = List.length g0).
    { rewrite <- (length_map (fun e => (fst e, (type (snd e), pos (snd e))))
                            (pre ++ [])).
      fold (skeleton (pre ++ [])). rewrite Hsk. apply length_map. }
    rewrite Hlen, Nat.eqb_refl. simpl.
    rewrite <- Hself. now rewrite set_tilemap_same.
  - cbn [dict_keys map fst dict_iter].
    assert (Hlen : List.length (tilemap self) = List.length g0).
    { rewrite Hself.
      rewrite <- (length_map (fun e => (fst e, (type (snd e), pos (snd e))))
                            (pre ++ (k, tile) :: suf)).
      fold (skeleton (pre ++ (k, tile) :: suf)). rewrite Hsk.
      apply length_map. }
    rewrite Hlen, Nat.eqb_refl. cbn [negb].
    assert (Hk : ~ In k (dict_keys pre)).
    { unfold dict_wf, dict_keys in Hwf. rewrite map_app in Hwf.
      cbn [map fst] in Hwf. apply NoDup_remove_2 in Hwf.
      intros Hin. apply Hwf. apply in_or_app. now left. }
    assert (Hget : dict_get k (tilemap self) = Some tile).
    { rewrite Hself, (dict_get_app_skip _ _ _ _ Hk). simpl.
      now rewrite String.eqb_refl. }
    rewrite (AutoTile_at_run _ _ _ Hget).
    assert (Hre : retile (tilemap self) tile = retile g0 tile).
    { apply retile_skeleton. now rewrite Hself. }
    rewrite Hre, Hself, (dict_set_app_skip _ _ _ _ _ _ Hk).
    fold (dict_keys suf).
    rewrite (IH (pre ++ [(k, retile g0 tile)])
                (set_tilemap self (pre ++ (k, retile g0 tile) :: suf))).
    + destruct self; unfold set_tilemap; cbn.
      now rewrite <- app_assoc.
    + destruct self; cbn. now rewrite <- app_assoc.
    + rewrite <- app_assoc. cbn [app].
      unfold dict_wf, dict_keys in *. rewrite map_app in *.
      exact Hwf.
    + rewrite <- app_assoc. cbn [app]. rewrite <- Hsk.
      rewrite !skeleton_app. f_equal. unfold skeleton. cbn [map fst snd].
      now rewrite retile_type, retile_pos.
Qed.

(** [AutoTile] returns, and leaves every record retiled against the
    grid it started from. *)
Lemma AutoTile_run (self : t) :
  dict_wf (tilemap self) ->
  AutoTile self
  = (Ok tt, set_tilemap self
              (map (retile_entry (tilemap self)) (tilemap self))).
Proof.
  intros Hwf. unfold AutoTile, bind, get.
  now rewrite (AutoTile_loop (tilemap self) (tilemap self) [] self).
Qed.

End AutoTileFacts.


Section AutoTileFrame.
Import Py Tilemap.
Implicit Types (g grid : dict (TileRecord Z)) (tile : TileRecord Z).

Lemma dict_get_retiled g0 g loc :
  dict_get loc (map (retile_entry g0) g)
  = option_map (retile g0) (dict_get loc g).
Proof.
  induction g as [|[k t] g IH]; simpl; [reflexivity|].
  now destruct (String.eqb k loc).
Qed.

Lemma dict_keys_retiled g0 g :
  dict_keys (map (retile_entry g0) g) = dict_keys g.
Proof. unfold dict_keys. rewrite map_map. now apply map_ext. Qed.

Lemma neighbor_directions_skeleton g g' tile tile' d :
  skeleton g = skeleton g' -> type tile = type tile' -> pos tile = pos tile' ->
  neighbor_directions g tile d = neighbor_directions g' tile' d.
Proof.
  intros Hsk Hty Hpos. unfold neighbor_directions. rewrite Hty, Hpos.
  now apply same_type_at_skeleton.
Qed.

(** One visit keeps everything but variants, whatever the grid. *)
Lemma AutoTile_at_frame (self : t) loc :
  In loc (dict_keys (tilemap self)) ->
  exists self',
    AutoTile_at tt loc self = (Ok tt, self')
    /\ tile_size self' = tile_size self
    /\ offgrid_tiles self' = offgrid_tiles self
    /\ skeleton (tilemap self') = skeleton (tilemap self).
Proof.
  intros Hin. apply dict_get_key_In in Hin.
  destruct (dict_get loc (tilemap self)) as [tile|] eqn:Hget; [|congruence].
  rewrite (AutoTile_at_run _ _ _ Hget). eexists. split; [reflexivity|].
  destruct self as [ts g og]. cbn in *. repeat split.
  unfold retile. destruct tuples_get as [v|]; [destruct type_in|].
  - now apply skeleton_dict_set.
  - now rewrite (dict_set_same _ _ _ _ Hget).
  - now rewrite (dict_set_same _ _ _ _ Hget).
Qed.

Lemma skeleton_length g g' :
  skeleton g = skeleton g' -> List.length g = List.length g'.
Proof.
  intros H. apply (f_equal (@List.length _)) in H.
  unfold skeleton in H. now rewrite !length_map in H.
Qed.

Lemma AutoTile_loop_frame n0 : forall ks (self : t),
  incl ks (dict_keys (tilemap self)) ->
  List.length (tilemap self) = n0 ->
  exists self',
    dict_iter (fun s => List.length (tilemap s)) n0 AutoTile_at ks tt self
    = (Ok tt, self')
    /\ tile_size self' = tile_size self
    /\ offgrid_tiles self' = offgrid_tiles self
    /\ skeleton (tilemap self') = skeleton (tilemap self).
Proof.
  induction ks as [|k ks IH]; intros self Hincl Hlen; cbn [dict_iter].
  - rewrite Hlen, Nat.eqb_refl. cbn. eauto.
  - rewrite Hlen, Nat.eqb_refl. cbn [negb].
    destruct (AutoTile_at_frame self k) as (s1 & Hrun & Hts & Hog & Hsk).
    { apply Hincl. now left. }
    rewrite Hrun.
    destruct (IH s1) as (s2 & Hrun2 & Hts2 & Hog2 & Hsk2).
    + rewrite <- skeleton_keys, Hsk, skeleton_keys.
      intros x Hx. apply Hincl. now right.
    + rewrite (skeleton_length _ _ Hsk). exact Hlen.
    + exists s2. rewrite Hrun2. repeat split; congruence.
Qed.

Lemma skeleton_Forall2 g g' :
  skeleton g = skeleton g' ->
  Forall2 (fun e e' => fst e = fst e' /\ type (snd e) = type (snd e')
                       /\ pos (snd e) = pos (snd e')) g g'.
Proof.
  unfold skeleton. revert g'.
  induction g as [|e g IH]; intros [|e' g']; simpl; try discriminate;
    [constructor|].
  intros [= Hk Hty Hpos Hrest]. constructor; auto.
Qed.

End AutoTileFrame.


(** C4.  After [AutoTile], a grid tile of an autotile-eligible type whose
    same-type 4-neighbour direction set is one of the nine canonical
    patterns carries the variant the table gives for that pattern, and a
    tile whose direction set is none of the nine (the empty set of an
    isolated tile and {left,right} are two such sets) keeps the variant it
    had.  The call returns normally, and a tile's direction set is the same
    before and after it. *)
Theorem AutoTile_assigns_canonical_variants (self : Tilemap.t) :
  Py.dict_wf (Tilemap.tilemap self) ->
  outcome Tilemap.AutoTile self = Py.Ok tt
  /\ (forall loc tile,
         Py.dict_get loc (Tilemap.tilemap self) = Some tile ->
         exists tile',
           Py.dict_get loc (Tilemap.tilemap (state_after Tilemap.AutoTile self))
           = Some tile'
           /\ (forall d,
                  neighbor_directions
                    (Tilemap.tilemap (state_after Tilemap.AutoTile self))
                    tile' d
                  = neighbor_directions (Tilemap.tilemap self) tile d)
           /\ (type_in (type tile) AUTOTILE_TYPES = true ->
               forall v,
                 canonical_variant
                   (neighbor_directions (Tilemap.tilemap self) tile) = Some v ->
                 variant tile' = v)
           /\ (canonical_variant
                 (neighbor_directions (Tilemap.tilemap self) tile) = None ->
               variant tile' = variant tile))
  /\ canonical_variant (fun _ => false) = None
  /\ canonical_variant
       (fun d => match d with DLeft | DRight => true | _ => false end) = None.
Proof.
  intros Hwf. unfold outcome, state_after.
  rewrite (AutoTile_run self Hwf). cbn [fst snd].
  split; [reflexivity|]. split; [|split; reflexivity].
  intros loc tile Hget.
  exists (retile (Tilemap.tilemap self) tile).
  destruct self as [ts g og]. cbn [Tilemap.tilemap Tilemap.set_tilemap] in *.
  split; [|split; [|split]].
  - now rewrite dict_get_retiled, Hget.
  - intros d. apply neighbor_directions_skeleton.
    + apply skeleton_retiled.
    + apply retile_type.
    + apply retile_pos.
  - intros Hty v Hv. unfold retile.
    now rewrite AUTOTILE_MAP_canonical, Hv, Hty.
  - intros Hnone. unfold retile. now rewrite AUTOTILE_MAP_canonical, Hnone.
Qed.

(** C5.  [AutoTile] is idempotent: run twice in succession it returns and
    leaves the map one run leaves.  It is independent of the order of
    traversal: on a map whose grid holds the same entries in another
    insertion order, and so is scanned in another order, it returns and
    leaves the same record under every key, the resulting grids being the
    same entries in the respective orders. *)
Theorem AutoTile_idempotent_order_independent (self : Tilemap.t) :
  Py.dict_wf (Tilemap.tilemap self) ->
  (Tilemap.AutoTile ;;; Tilemap.AutoTile) self = Tilemap.AutoTile self
  /\ forall grid',
       Permutation (Tilemap.tilemap self) grid' ->
       let self' := Tilemap.set_tilemap self grid' in
       outcome Tilemap.AutoTile self' = outcome Tilemap.AutoTile self
       /\ Permutation (Tilemap.tilemap (state_after Tilemap.AutoTile self))
                      (Tilemap.tilemap (state_after Tilemap.AutoTile self'))
       /\ forall loc,
            Py.dict_get loc
              (Tilemap.tilemap (state_after Tilemap.AutoTile self'))
            = Py.dict_get loc
                (Tilemap.tilemap (state_after Tilemap.AutoTile self)).
Proof.
  intros Hwf. destruct self as [ts g og]. cbn [Tilemap.tilemap] in Hwf.
  assert (Hwf1 : Py.dict_wf (map (retile_entry g) g)).
  { unfold Py.dict_wf. now rewrite dict_keys_retiled. }
  split.
  - unfold Py.bind. rewrite (AutoTile_run (Tilemap.mk ts g og) Hwf).
    cbv beta iota. unfold Tilemap.set_tilemap.
    cbn [Tilemap.tilemap Tilemap.tile_size Tilemap.offgrid_tiles].
    rewrite (AutoTile_run (Tilemap.mk ts (map (retile_entry g) g) og) Hwf1).
    unfold Tilemap.set_tilemap.
    cbn [Tilemap.tilemap Tilemap.tile_size Tilemap.offgrid_tiles].
    do 2 f_equal. rewrite map_map. apply map_ext. intros [k tile].
    unfold retile_entry. cbn [fst snd]. f_equal.
    rewrite (retile_skeleton _ g _ (skeleton_retiled g g)).
    apply retile_idem.
  - intros grid' Hperm self'. subst self'. unfold outcome, state_after.
    unfold Tilemap.set_tilemap.
    cbn [Tilemap.tilemap Tilemap.tile_size Tilemap.offgrid_tiles].
    assert (Hwf' : Py.dict_wf grid').
    { unfold Py.dict_wf, Py.dict_keys in *.
      eapply Permutation_NoDup; [|exact Hwf]. now apply Permutation_map. }
    rewrite (AutoTile_run (Tilemap.mk ts g og) Hwf).
    rewrite (AutoTile_run (Tilemap.mk ts grid' og) Hwf').
    unfold Tilemap.set_tilemap. cbn [fst snd Tilemap.tilemap].
    assert (Hre : forall tile, retile grid' tile = retile g tile).
    { intros tile. unfold retile, Tilemap.neighbors, Tilemap.SHIFTS,
        Tilemap.same_type_at. cbn [fold_left].
      now rewrite !(fun k => dict_get_perm _ k g grid' Hwf Hperm). }
    assert (Hmap : map (retile_entry grid') grid' = map (retile_entry g) grid').
    { apply map_ext. intros [k tile]. unfold retile_entry. cbn.
      now rewrite Hre. }
    rewrite Hmap. split; [reflexivity|]. split.
    + now apply Permutation_map.
    + intros loc. rewrite !dict_get_retiled. f_equal. symmetry.
      now apply dict_get_perm.
Qed.


(** Distinctness of the keys of a concrete dictionary. *)
Ltac wf_by_computation :=
  unfold Py.dict_wf, Py.dict_keys; cbn [map fst];
  repeat (apply NoDup_cons; [cbn [In]; intuition discriminate|]);
  apply NoDup_nil.

(** In the L-shape the tile at (0,0) has neighbours to the right and below
    and ends with variant 0. *)
Lemma AutoTile_assigns_canonical_variants_witness :
  Py.dict_wf (Tilemap.tilemap Examples.l_shape)
  /\ outcome Tilemap.AutoTile Examples.l_shape = Py.Ok tt
  /\ exists tile',
       Py.dict_get "0;0"
         (Tilemap.tilemap (state_after Tilemap.AutoTile Examples.l_shape))
       = Some tile'
       /\ variant tile' = 0.
Proof.
  assert (H : Py.dict_wf (Tilemap.tilemap Examples.l_shape))
    by (unfold Examples.l_shape; cbn [Tilemap.tilemap]; wf_by_computation).
  split; [exact H|].
  destruct (AutoTile_assigns_canonical_variants Examples.l_shape H)
    as (Hok & Htiles & _).
  split; [exact Hok|].
  destruct (Htiles "0;0"%string (mkTile "stone" 5 (0, 0)) eq_refl)
    as (tile' & Hget & _ & Hv & _).
  exists tile'. split; [exact Hget|].
  exact (Hv eq_refl 0 eq_refl).
Defined.

(** The L-shape scanned in two orders. *)
Lemma AutoTile_idempotent_order_independent_witness :
  Py.dict_wf (Tilemap.tilemap Examples.l_shape)
  /\ Permutation (Tilemap.tilemap Examples.l_shape) Examples.l_shape_reordered
  /\ (Tilemap.AutoTile ;;; Tilemap.AutoTile) Examples.l_shape
     = Tilemap.AutoTile Examples.l_shape
  /\ forall loc,
       Py.dict_get loc
         (Tilemap.tilemap
            (state_after Tilemap.AutoTile
               (Tilemap.set_tilemap Examples.l_shape
                                    Examples.l_shape_reordered)))
       = Py.dict_get loc
           (Tilemap.tilemap (state_after Tilemap.AutoTile Examples.l_shape)).
Proof.
  assert (H : Py.dict_wf (Tilemap.tilemap Examples.l_shape))
    by (unfold Examples.l_shape; cbn [Tilemap.tilemap]; wf_by_computation).
  assert (Hp : Permutation (Tilemap.tilemap Examples.l_shape)
                           Examples.l_shape_reordered).
  { apply Permutation_sym.
    exact (Permutation_cons_append
             [("0;0"%string, mkTile "stone" 5 (0, 0));
              ("1;0"%string, mkTile "stone" 5 (1, 0))]
             ("0;1"%string, mkTile "stone" 5 (0, 1))). }
  split; [exact H|]. split; [exact Hp|].
  destruct (AutoTile_idempotent_order_independent Examples.l_shape H)
    as (Hidem & Horder).
  split; [exact Hidem|].
  exact (proj2 (proj2 (Horder Examples.l_shape_reordered Hp))).
Defined.

(** C10.  A run of [AutoTile] returns and changes at most the variant
    fields of grid records: the tile size and the decoration list are the
    ones before the call, and the grid has the same keys in the same order,
    each with a record of the same type and position. *)
Theorem AutoTile_frame (self : Tilemap.t) :
  exists self',
    Tilemap.AutoTile self = (Py.Ok tt, self')
    /\ Tilemap.tile_size self' = Tilemap.tile_size self
    /\ Tilemap.offgrid_tiles self' = Tilemap.offgrid_tiles self
    /\ Py.dict_keys (Tilemap.tilemap self')
       = Py.dict_keys (Tilemap.tilemap self)
    /\ Forall2 (fun e e' => fst e = fst e'
                            /\ type (snd e) = type (snd e')
                            /\ pos (snd e) = pos (snd e'))
               (Tilemap.tilemap self) (Tilemap.tilemap self').
Proof.
  unfold Tilemap.AutoTile, Py.bind, Py.get.
  destruct (AutoTile_loop_frame (List.length (Tilemap.tilemap self))
              (Py.dict_keys (Tilemap.tilemap self)) self)
    as (self' & Hrun & Hts & Hog & Hsk).
  - apply incl_refl.
  - reflexivity.
  - exists self'. repeat split; try assumption.
    + now rewrite <- !skeleton_keys, Hsk.
    + apply skeleton_Forall2. now symmetry.
Qed.


(* ================================================================== *)
(** * Extract *)
(* ================================================================== *)

Section ExtractFacts.
Import Py Tilemap.
Variable id_pairs : list (string * Z).

Lemma dict_iter_size_changed S A (len : S -> nat) n0
      (f : A -> string -> M S A) ks a s :
  len s <> n0 -> dict_iter len n0 f ks a s = (Raise RuntimeError, s).
Proof.
  intros H. apply Nat.eqb_neq in H.
  destruct ks; cbn [dict_iter]; now rewrite H.
Qed.

(** *** The decoration pass *)


Lemma offgrid_eqb_refl tile : offgrid_eqb tile tile = true.
Proof.
  unfold offgrid_eqb.
  rewrite String.eqb_refl, Z.eqb_refl.
  now rewrite !(proj2 (Qeq_bool_iff _ _) (Qeq_refl _)).
Qed.

Lemma offgrid_eqb_match a b :
  offgrid_eqb a b = true -> id_match id_pairs a = id_match id_pairs b.
Proof.
  unfold offgrid_eqb, id_match. intros H.
  apply andb_prop in H as [H _]. apply andb_prop in H as [H _].
  apply andb_prop in H as [Hty Hv].
  apply String.eqb_eq in Hty. apply Z.eqb_eq in Hv. now rewrite Hty, Hv.
Qed.

(** Removing a matching record from a list that starts with records
    that do not match takes out that very record. *)
Lemma list_remove_after_kept tile : forall kept rest,
  id_match id_pairs tile = true ->
  forallb (fun x => negb (id_match id_pairs x)) kept = true ->
  list_remove offgrid_eqb tile (kept ++ tile :: rest) = Some (kept ++ rest).
Proof.
  intros kept rest Hm.
  induction kept as [|x kept IH]; cbn [list_remove app forallb].
  - now rewrite offgrid_eqb_refl.
  - intros H. apply andb_prop in H as [Hx Hk].
    destruct (offgrid_eqb x tile) eqn:E.
    + apply offgrid_eqb_match in E. rewrite E, Hm in Hx. discriminate.
    + now rewrite (IH Hk).
Qed.

Lemma Extract_offgrid_discard : forall rest kept acc (self : t),
  offgrid_tiles self = kept ++ rest ->
  forallb (fun x => negb (id_match id_pairs x)) kept = true ->
  for_each (Extract_offgrid id_pairs false) rest acc self
  = (Ok (acc ++ map inl (filter (id_match id_pairs) rest)),
     set_offgrid_tiles self
       (kept ++ filter (fun x => negb (id_match id_pairs x)) rest)).
Proof.
  induction rest as [|tile rest IH]; intros kept acc self Hself Hkept;
    cbn [for_each filter].
  - unfold ret. rewrite app_nil_r, <- Hself. now destruct self.
  - unfold bind, Extract_offgrid at 1.
    destruct (id_match id_pairs tile) eqn:Hm; cbn [negb].
    + unfold bind, get. rewrite Hself.
      rewrite (list_remove_after_kept tile kept rest Hm Hkept).
      unfold put, ret.
      rewrite (IH kept (acc ++ [inl tile])
                  (set_offgrid_tiles self (kept ++ rest)) eq_refl Hkept).
      cbn [map]. rewrite <- app_assoc. now destruct self.
    + unfold ret.
      rewrite (IH (kept ++ [tile]) acc self).
      * now rewrite <- app_assoc.
      * now rewrite Hself, <- app_assoc.
      * rewrite forallb_app, Hkept. cbn. now rewrite Hm.
Qed.

(** *** The grid pass *)


Lemma dict_del_length V (d : dict V) k :
  dict_get k d <> None -> S (List.length (dict_del k d)) = List.length d.
Proof.
  induction d as [|[k' v'] d IH]; cbn [dict_get dict_del]; [congruence|].
  destruct (String.eqb k' k); cbn [List.length]; [reflexivity|].
  intros H. f_equal. auto.
Qed.

Lemma Extract_grid_discard n0 : forall suf pre acc (self : t),
  tilemap self = pre ++ suf ->
  dict_wf (pre ++ suf) ->
  List.length (pre ++ suf) = n0 ->
  (existsb (id_match id_pairs) (map snd suf) = false ->
   dict_iter (fun s => List.length (tilemap s)) n0
             (Extract_grid id_pairs false) (dict_keys suf) acc self
   = (Ok acc, self))
  /\ (existsb (id_match id_pairs) (map snd suf) = true ->
      fst (dict_iter (fun s => List.length (tilemap s)) n0
                     (Extract_grid id_pairs false) (dict_keys suf) acc self)
      = Raise RuntimeError).
Proof.
  induction suf as [|[k tile] suf IH]; intros pre acc self Hself Hwf Hlen;
    cbn [dict_keys map fst snd dict_iter existsb];
    rewrite Hself, Hlen, Nat.eqb_refl; cbn [negb].
  - split; [reflexivity|discriminate].
  - assert (Hk : ~ In k (dict_keys pre)).
    { unfold dict_wf, dict_keys in Hwf. rewrite map_app in Hwf.
      cbn [map fst] in Hwf. apply NoDup_remove_2 in Hwf.
      intros Hin. apply Hwf. apply in_or_app. now left. }
    assert (Hget : dict_get k (pre ++ (k, tile) :: suf) = Some tile).
    { rewrite (dict_get_app_skip _ _ _ _ Hk). cbn [dict_get].
      now rewrite String.eqb_refl. }
    unfold Extract_grid at 1 3, bind, get. rewrite Hself, Hget.
    fold (dict_keys suf).
    destruct (id_match id_pairs tile); cbn [negb orb]; unfold put, ret.
    + split; [discriminate|]. intros _.
      rewrite dict_iter_size_changed; [reflexivity|].
      cbn [tilemap set_tilemap].
      assert (Hd := dict_del_length _ (pre ++ (k, tile) :: suf) k).
      rewrite Hget in Hd. specialize (Hd ltac:(discriminate)). lia.
    + apply (IH (pre ++ [(k, tile)]));
        now rewrite <- app_assoc.
Qed.

End ExtractFacts.




(** C2 on the code.  With [keep=False] the decoration pass removes the
    matching decorations, but the grid pass deletes from the dictionary it
    is iterating over: as soon as one grid record matches, the call raises
    [RuntimeError] instead of returning.  Only when no grid record matches
    does it return, with the matching decorations removed and copied. *)
Theorem Extract_discard_raises_on_grid_match
        (self : Tilemap.t) (id_pairs : list (string * Z)) :
  Py.dict_wf (Tilemap.tilemap self) ->
  (existsb (Tilemap.id_match id_pairs) (map snd (Tilemap.tilemap self))
   = true ->
   outcome (Tilemap.Extract id_pairs false) self = Py.Raise Py.RuntimeError)
  /\ (existsb (Tilemap.id_match id_pairs) (map snd (Tilemap.tilemap self))
      = false ->
      Tilemap.Extract id_pairs false self
      = (Py.Ok (map inl (filter (Tilemap.id_match id_pairs)
                                (Tilemap.offgrid_tiles self))),
         Tilemap.set_offgrid_tiles self
           (filter (fun x => negb (Tilemap.id_match id_pairs x))
                   (Tilemap.offgrid_tiles self)))).
Proof.
  intros Hwf. unfold outcome, Tilemap.Extract, Py.bind, Py.get.
  rewrite (Extract_offgrid_discard id_pairs (Tilemap.offgrid_tiles self) []
             [] self eq_refl eq_refl).
  cbn [app].
  set (self1 := Tilemap.set_offgrid_tiles self _).
  destruct (Extract_grid_discard id_pairs
              (List.length (Tilemap.tilemap self1))
              (Tilemap.tilemap self1) []
              (map inl (filter (Tilemap.id_match id_pairs)
                               (Tilemap.offgrid_tiles self)))
              self1 eq_refl Hwf eq_refl) as [Hnone Hsome].
  split; intros H.
  - now apply Hsome.
  - now apply Hnone.
Qed.

(** A level whose player spawner is on the grid: the default call of the
    level loader raises, the spawner already deleted from the grid. *)
Lemma Extract_discard_raises_on_grid_match_witness :
  Py.dict_wf (Tilemap.tilemap Examples.grid_spawner)
  /\ existsb (Tilemap.id_match Examples.spawner_ids)
             (map snd (Tilemap.tilemap Examples.grid_spawner)) = true
  /\ outcome (Tilemap.Extract Examples.spawner_ids false) Examples.grid_spawner
     = Py.Raise Py.RuntimeError
  /\ Tilemap.Extract Examples.spawner_ids false Examples.grid_spawner
     = (Py.Raise Py.RuntimeError, Tilemap.mk 16 [] []).
Proof.
  assert (H : Py.dict_wf (Tilemap.tilemap Examples.grid_spawner))
    by (unfold Examples.grid_spawner; cbn [Tilemap.tilemap]; wf_by_computation).
  split; [exact H|]. split; [reflexivity|]. split; [|reflexivity].
  exact (proj1 (Extract_discard_raises_on_grid_match
                  Examples.grid_spawner Examples.spawner_ids H) eq_refl).
Defined.


(* ================================================================== *)
(** * Save and Load *)
(* ================================================================== *)



(** An editing session saved and loaded back. *)
Example Load_Save_session :
  Tilemap.Load "data/maps/map.json"
               (Tilemap.Save (Editor.build 16 Examples.session)
                             "data/maps/map.json" (fun _ => None))
               (Tilemap.init 16)
  = (Py.Ok tt,
     Tilemap.mk 16 [("1;0"%string, mkTile "grass" 2 (1, 0))]
                [mkTile "decor" 3 (25 # 2, 40 # 1)%Q]).
Proof. reflexivity. Qed.

(** C6 as stated fails: a document without ['tile_size'] makes [Load]
    raise after the grid of the live map has been replaced. *)
Lemma Load_partial_commit_counterexample :
  outcome (Tilemap.Load "data/maps/map.json" Examples.fs_truncated)
          (Tilemap.init 16)
  = Py.Raise Py.KeyError
  /\ state_after (Tilemap.Load "data/maps/map.json" Examples.fs_truncated)
                 (Tilemap.init 16)
     = Tilemap.mk 16 [("7;7"%string, mkTile "grass" 0 (7, 7))] []
  /\ state_after (Tilemap.Load "data/maps/map.json" Examples.fs_truncated)
                 (Tilemap.init 16)
     <> Tilemap.init 16.
Proof.
  split; [reflexivity|]. split; [reflexivity|]. discriminate.
Qed.

(** C6, amended.  [Load] raises the not-found error exactly when nothing
    exists at the path.  A load that fails because the path does not
    exist, because the file is not a JSON document, or because the
    document has no ['tilemap'] leaves the live map untouched.  The three
    fields are committed one by one in the order grid, tile size,
    decorations: a document that has ['tilemap'] but no ['tile_size'] makes
    the load raise with the grid already replaced, and one that lacks only
    ['offgrid'] makes it raise with grid and tile size already replaced. *)
Theorem Load_failure_modes
        (path : string) (fs : filesystem) (live : Tilemap.t) :
  (outcome (Tilemap.Load path fs) live = Py.Raise Py.FileNotFoundError
   <-> fs path = None)
  /\ (fs path = None
      \/ fs path = Some NotJson
      \/ (exists d, fs path = Some (Json d) /\ doc_tilemap d = None) ->
      exists e, Tilemap.Load path fs live = (Py.Raise e, live))
  /\ (forall d g,
         fs path = Some (Json d) ->
         doc_tilemap d = Some g -> doc_tile_size d = None ->
         Tilemap.Load path fs live
         = (Py.Raise Py.KeyError, Tilemap.set_tilemap live g))
  /\ (forall d g n,
         fs path = Some (Json d) ->
         doc_tilemap d = Some g -> doc_tile_size d = Some n ->
         doc_offgrid d = None ->
         Tilemap.Load path fs live
         = (Py.Raise Py.KeyError,
            Tilemap.set_tile_size (Tilemap.set_tilemap live g) n)).
Proof.
  unfold outcome, Tilemap.Load.
  split; [|split; [|split]].
  - destruct (fs path) as [[|[g n l]]|]; cbn.
    + split; discriminate.
    + destruct g, n, l; cbn; split; discriminate.
    + split; reflexivity.
  - intros [H|[H|(d & H & Hd)]]; rewrite H.
    + now exists Py.FileNotFoundError.
    + now exists Py.JSONDecodeError.
    + exists Py.KeyError. unfold Py.bind, Tilemap.field. now rewrite Hd.
  - intros d g H Hg Hn. rewrite H.
    unfold Py.bind, Tilemap.field. now rewrite Hg, Hn.
  - intros d g n H Hg Hn Hl. rewrite H.
    unfold Py.bind, Tilemap.field. now rewrite Hg, Hn, Hl.
Qed.

Lemma Load_failure_modes_witness :
  Examples.fs_garbled "data/maps/map.json"%string = Some NotJson
  /\ exists e,
       Tilemap.Load "data/maps/map.json" Examples.fs_garbled (Tilemap.init 16)
       = (Py.Raise e, Tilemap.init 16).
Proof.
  split; [reflexivity|].
  exact (proj1 (proj2 (Load_failure_modes "data/maps/map.json"
                         Examples.fs_garbled (Tilemap.init 16)))
               (or_intror (or_introl eq_refl))).
Defined.


(* ================================================================== *)
(** * The collision resolver *)
(* ================================================================== *)

Section UpdateFacts.
Import Py PhysicsEntity.

Lemma Physics_Rects_Around_total (tm : Tilemap.t) (p : Q * Q) :
  Tilemap.tile_size tm <> 0 ->
  exists rects, Tilemap.Physics_Rects_Around tm p = Ok rects.
Proof.
  intros Hts. unfold Tilemap.Physics_Rects_Around, Tilemap.Tiles_Around,
    floordiv.
  apply Z.eqb_neq in Hts. rewrite Hts. eauto.
Qed.

Lemma Physics_Rects_Around_zero (tm : Tilemap.t) (p : Q * Q) :
  Tilemap.tile_size tm = 0 ->
  Tilemap.Physics_Rects_Around tm p = Raise ZeroDivisionError.
Proof.
  intros Hts. unfold Tilemap.Physics_Rects_Around, Tilemap.Tiles_Around,
    floordiv.
  now rewrite Hts.
Qed.

(** [Update], phase by phase, when both spatial queries answer. *)
Lemma Update_phases (tm : Tilemap.t) (movement : Q * Q) (self : t)
      (rects_x rects_y : list Rect.t) :
  let fm := frame_movement movement self in
  let self1 := moved_x fm self in
  let self2 := moved_y fm (resolved_x fm rects_x self1) in
  Tilemap.Physics_Rects_Around tm (pos self1) = Ok rects_x ->
  Tilemap.Physics_Rects_Around tm (pos self2) = Ok rects_y ->
  Update tm movement self
  = (Ok tt, settled movement (resolved_y fm rects_y self2)).
Proof.
  intros fm self1 self2 Hx Hy.
  unfold Update, bind, modify, get, lift, put.
  fold (frame_movement movement
          (set_collisions self (mkFlags false false false false))).
  change (frame_movement movement
            (set_collisions self (mkFlags false false false false)))
    with fm.
  change (set_pos (set_collisions self (mkFlags false false false false))
                  ((fst (pos (set_collisions self
                                (mkFlags false false false false)))
                    + fst fm)%Q,
                   snd (pos (set_collisions self
                               (mkFlags false false false false)))))
    with self1.
  rewrite Hx.
  change (snd (fold_left (collide_x (fst fm)) rects_x (Rect self1, self1)))
    with (resolved_x fm rects_x self1).
  change (set_pos (resolved_x fm rects_x self1)
                  (fst (pos (resolved_x fm rects_x self1)),
                   (snd (pos (resolved_x fm rects_x self1)) + snd fm)%Q))
    with self2.
  rewrite Hy. reflexivity.
Qed.

(** With a non-zero tile size [Update] returns. *)
Lemma Update_total (tm : Tilemap.t) (movement : Q * Q) (self : t) :
  Tilemap.tile_size tm <> 0 ->
  exists rects_x rects_y,
    let fm := frame_movement movement self in
    let self1 := moved_x fm self in
    let self2 := moved_y fm (resolved_x fm rects_x self1) in
    Tilemap.Physics_Rects_Around tm (pos self1) = Ok rects_x
    /\ Tilemap.Physics_Rects_Around tm (pos self2) = Ok rects_y
    /\ Update tm movement self
       = (Ok tt, settled movement (resolved_y fm rects_y self2)).
Proof.
  intros Hts.
  destruct (Physics_Rects_Around_total tm
              (pos (moved_x (frame_movement movement self) self)) Hts)
    as [rx Hx].
  destruct (Physics_Rects_Around_total tm
              (pos (moved_y (frame_movement movement self)
                      (resolved_x (frame_movement movement self) rx
                         (moved_x (frame_movement movement self) self)))) Hts)
    as [ry Hy].
  exists rx, ry. cbv zeta. split; [exact Hx|]. split; [exact Hy|].
  now apply Update_phases.
Qed.




Lemma settled_collisions movement self :
  collisions (settled movement self) = collisions self.
Proof.
  unfold settled.
  destruct (ltb 0 (fst movement)), (ltb (fst movement) 0); cbn;
    destruct (down (collisions self) || up (collisions self)); reflexivity.
Qed.




End UpdateFacts.


Section Gravity.
Import Py PhysicsEntity.

Lemma flat_map_nil A B (f : A -> list B) (l : list A) :
  (forall x, In x l -> f x = []) -> flat_map f l = [].
Proof.
  induction l as [|x l IH]; intros H; cbn [flat_map]; [reflexivity|].
  rewrite (H x (or_introl eq_refl)), IH; [reflexivity|].
  intros y Hy. apply H. now right.
Qed.

(** Every tile a spatial query returns is a record of the grid. *)
Lemma Tiles_Around_In (tm : Tilemap.t) p tiles tile :
  Tilemap.Tiles_Around tm p = Ok tiles -> In tile tiles ->
  exists loc, In (loc, tile) (Tilemap.tilemap tm).
Proof.
  unfold Tilemap.Tiles_Around.
  destruct (floordiv (fst p) (Tilemap.tile_size tm)) as [tx|]; [|discriminate].
  destruct (floordiv (snd p) (Tilemap.tile_size tm)) as [ty|]; [|discriminate].
  intros Heq Hin.
  apply (f_equal (fun r => match r with Ok l => l | Raise _ => [] end)) in Heq.
  cbv beta iota in Heq. subst tiles.
  apply in_flat_map in Hin as (off & _ & Hin).
  destruct (dict_get _ (Tilemap.tilemap tm)) as [t'|] eqn:E; [|contradiction].
  destruct Hin as [->|[]]. eexists. apply dict_get_In. exact E.
Qed.

Lemma Physics_Rects_Around_no_solids (tm : Tilemap.t) p :
  Tilemap.tile_size tm <> 0 -> no_solids tm ->
  Tilemap.Physics_Rects_Around tm p = Ok [].
Proof.
  intros Hts Hns. unfold Tilemap.Physics_Rects_Around.
  destruct (Tilemap.Tiles_Around tm p) as [tiles|e] eqn:E.
  - f_equal. apply flat_map_nil. intros tile Hin.
    destruct (Tiles_Around_In tm p tiles tile E Hin) as [loc Hloc].
    now rewrite (Hns loc tile Hloc).
  - exfalso. unfold Tilemap.Tiles_Around, floordiv in E.
    apply Z.eqb_neq in Hts. rewrite Hts in E. discriminate.
Qed.






End Gravity.




(* ================================================================== *)
(** * Rectangles and coordinate conversions *)
(* ================================================================== *)

Section RectFacts.

Lemma colliderect_true (a b : Rect.t) :
  0 < Rect.w a -> 0 < Rect.h a -> 0 < Rect.w b -> 0 < Rect.h b ->
  (Rect.colliderect a b = true
   <-> Rect.x a < Rect.x b + Rect.w b /\ Rect.y a < Rect.y b + Rect.h b
       /\ Rect.x b < Rect.x a + Rect.w a /\ Rect.y b < Rect.y a + Rect.h a).
Proof.
  intros Hwa Hha Hwb Hhb. unfold Rect.colliderect.
  destruct (Rect.w a =? 0) eqn:E1; [apply Z.eqb_eq in E1; lia|].
  destruct (Rect.h a =? 0) eqn:E2; [apply Z.eqb_eq in E2; lia|].
  destruct (Rect.w b =? 0) eqn:E3; [apply Z.eqb_eq in E3; lia|].
  destruct (Rect.h b =? 0) eqn:E4; [apply Z.eqb_eq in E4; lia|].
  cbn [orb].
  rewrite !andb_true_iff, !Z.ltb_lt, !Z.gtb_lt.
  rewrite !Z.min_l, !Z.max_r by lia. lia.
Qed.

Lemma colliderect_false (a b : Rect.t) :
  0 < Rect.w a -> 0 < Rect.h a -> 0 < Rect.w b -> 0 < Rect.h b ->
  (Rect.colliderect a b = false
   <-> Rect.x b + Rect.w b <= Rect.x a \/ Rect.y b + Rect.h b <= Rect.y a
       \/ Rect.x a + Rect.w a <= Rect.x b \/ Rect.y a + Rect.h a <= Rect.y b).
Proof.
  intros Hwa Hha Hwb Hhb.
  pose proof (colliderect_true a b Hwa Hha Hwb Hhb) as H.
  destruct (Rect.colliderect a b).
  - split; [discriminate|]. intros Hd.
    destruct (proj1 H eq_refl) as (? & ? & ? & ?). lia.
  - split; [|reflexivity]. intros _.
    destruct (Z_lt_le_dec (Rect.x a) (Rect.x b + Rect.w b)); [|lia].
    destruct (Z_lt_le_dec (Rect.y a) (Rect.y b + Rect.h b)); [|lia].
    destruct (Z_lt_le_dec (Rect.x b) (Rect.x a + Rect.w a)); [|lia].
    destruct (Z_lt_le_dec (Rect.y b) (Rect.y a + Rect.h a)); [|lia].
    assert (false = true) by (apply H; lia). discriminate.
Qed.

Lemma int_comp (x y : Q) : (x == y)%Q -> Py.int x = Py.int y.
Proof.
  intros H. unfold Py.int.
  rewrite (Qleb_comp 0%Q 0%Q (Qeq_refl 0%Q) x y H).
  now rewrite (Qfloor_comp x y H), (Qceiling_comp x y H).
Qed.

Lemma int_inject_Z (z : Z) : Py.int (inject_Z z) = z.
Proof.
  unfold Py.int. rewrite Qfloor_Z, Qceiling_Z. now destruct (Qle_bool _ _).
Qed.

Lemma floordiv_inject_Z (x : Q) (a n : Z) :
  n <> 0 -> (x == inject_Z a)%Q -> Py.floordiv x n = Py.Ok (a / n).
Proof.
  intros Hn Hx. unfold Py.floordiv.
  apply Z.eqb_neq in Hn. rewrite Hn. f_equal.
  rewrite (Zdiv_Qdiv a n). apply Qfloor_comp. now rewrite Hx.
Qed.

Lemma fold_left_repeat_fix A B (f : A -> B -> A) (a : A) (b : B) n :
  f a b = a -> fold_left f (repeat b n) a = a.
Proof.
  intros H. induction n as [|n IH]; cbn [repeat fold_left]; [reflexivity|].
  now rewrite H.
Qed.

End RectFacts.


(* ================================================================== *)
(** * A body against a single solid tile *)
(* ================================================================== *)

Section SingleTile.
Import Py PhysicsEntity.

Variables (ts : Z) (g : Z * Z) (ty : string) (v : Z).
Variable offgrid : list (TileRecord Q).
Hypothesis ts_pos : 0 < ts.
Hypothesis solid : type_in ty PHYSICS_TILES = true.

(** The query returns the one tile, as often as its key is probed. *)
Lemma single_tile_probe (tx ty' : Z) : forall offsets,
  exists m,
    flat_map
      (fun offset : Z * Z =>
         match dict_get
                 (loc_key (tx + fst offset, ty' + snd offset))
                 (Tilemap.tilemap (single_tile_map ts g ty v offgrid)) with
         | Some t => [t]
         | None => []
         end) offsets
    = repeat (mkTile ty v g) m
    /\ ((exists off, In off offsets
                     /\ (tx + fst off, ty' + snd off) = g) ->
        (1 <= m)%nat).
Proof.
  induction offsets as [|off offsets (m & IH & Hm)]; cbn [flat_map].
  - exists 0%nat. split; [reflexivity|]. intros (off & [] & _).
  - rewrite IH. cbn [Tilemap.tilemap single_tile_map dict_get].
    destruct (String.eqb (loc_key g)
                         (loc_key (tx + fst off, ty' + snd off))) eqn:E.
    + exists (S m). split; [reflexivity|]. intros _. lia.
    + exists m. split; [reflexivity|].
      intros (off' & [<-|Hin] & Heq).
      * rewrite Heq, String.eqb_refl in E. discriminate.
      * apply Hm. eauto.
Qed.

Lemma single_tile_rects (p : Q * Q) (a b : Z) :
  (fst p == inject_Z a)%Q -> (snd p == inject_Z b)%Q ->
  exists m,
    Tilemap.Physics_Rects_Around (single_tile_map ts g ty v offgrid) p
    = Ok (repeat (tile_rect ts g) m)
    /\ ((exists off, In off NEIGHBOR_OFFSET
                     /\ (a / ts + fst off, b / ts + snd off) = g) ->
        (1 <= m)%nat).
Proof.
  intros Ha Hb.
  unfold Tilemap.Physics_Rects_Around, Tilemap.Tiles_Around.
  change (Tilemap.tile_size (single_tile_map ts g ty v offgrid)) with ts.
  rewrite (floordiv_inject_Z (fst p) a ts) by (lia || assumption).
  rewrite (floordiv_inject_Z (snd p) b ts) by (lia || assumption).
  destruct (single_tile_probe (a / ts) (b / ts) NEIGHBOR_OFFSET)
    as (m & Hm & Hone).
  exists m. split; [|exact Hone].
  rewrite Hm. f_equal.
  clear Hm Hone. induction m as [|m IH]; cbn [repeat flat_map]; [reflexivity|].
  rewrite IH. cbn [type pos fst snd app]. rewrite solid. reflexivity.
Qed.

End SingleTile.


Section BlockedRight.
Import Py PhysicsEntity.

Lemma settled_Rect movement self : Rect (settled movement self) = Rect self.
Proof.
  unfold settled, Rect.
  destruct (ltb 0 (fst movement)), (ltb (fst movement) 0); cbn;
    destruct (down (collisions self) || up (collisions self)); reflexivity.
Qed.

Lemma five_div (ts : Z) : 3 <= ts -> 5 / ts = 0 \/ 5 / ts = 1.
Proof.
  intros H. destruct (Z_lt_le_dec 5 ts) as [Hl|Hl].
  - left. apply Z.div_small. lia.
  - right. assert (Hc : ts = 3 \/ ts = 4 \/ ts = 5) by lia.
    destruct Hc as [Hc|[Hc|Hc]]; rewrite Hc; reflexivity.
Qed.

End BlockedRight.

(** C7 as stated fails for tiles smaller than the step: on a grid of
    1-pixel tiles the body jumps five pixels, past the 3x3 cells that
    contain the obstacle, and no collision is reported. *)
Lemma Update_tunnels_counterexample :
  type_in "stone" PHYSICS_TILES = true
  /\ Rect.right (PhysicsEntity.Rect (Examples.runner 1))
     = Rect.left (tile_rect 1 (1, 0))
  /\ outcome (PhysicsEntity.Update
                (single_tile_map 1 (1, 0) "stone" 0 []) (0, 0)%Q)
             (Examples.runner 1)
     = Py.Ok tt
  /\ Rect.right
       (PhysicsEntity.Rect
          (state_after (PhysicsEntity.Update
                          (single_tile_map 1 (1, 0) "stone" 0 []) (0, 0)%Q)
                       (Examples.runner 1)))
     = 6
  /\ Rect.left (tile_rect 1 (1, 0)) = 1
  /\ PhysicsEntity.right
       (PhysicsEntity.collisions
          (state_after (PhysicsEntity.Update
                          (single_tile_map 1 (1, 0) "stone" 0 []) (0, 0)%Q)
                       (Examples.runner 1)))
     = false.
Proof. repeat split; vm_compute; reflexivity. Qed.

(** C7, amended by the tile size.  A body one tile in size, aligned with a
    single solid tile immediately to its right, with velocity (5,0) and no
    intended movement, on a map of tile size at least 3: one update
    returns, leaves the body's right edge equal to the obstacle's left
    edge, and sets the right collision flag. *)
Theorem Update_blocked_right
        (ts : Z) (g : Z * Z) (ty : string) (v : Z)
        (offgrid : list (TileRecord Q)) (self : PhysicsEntity.t) :
  3 <= ts ->
  type_in ty PHYSICS_TILES = true ->
  PhysicsEntity.pos self
  = (inject_Z ((fst g - 1) * ts), inject_Z (snd g * ts)) ->
  PhysicsEntity.size self = (ts, ts) ->
  PhysicsEntity.velocity self = (5, 0)%Q ->
  exists self',
    PhysicsEntity.Update (single_tile_map ts g ty v offgrid) (0, 0)%Q self
    = (Py.Ok tt, self')
    /\ Rect.right (PhysicsEntity.Rect self') = Rect.left (tile_rect ts g)
    /\ PhysicsEntity.right (PhysicsEntity.collisions self') = true.
Proof.
  intros Hts Hsolid Hpos Hsize Hvel.
  destruct self as [p sz vel c fl lm], g as [gx gy].
  cbn [PhysicsEntity.pos PhysicsEntity.size PhysicsEntity.velocity fst snd]
    in Hpos, Hsize, Hvel.
  subst p sz vel.
  set (self := PhysicsEntity.mk _ _ _ c fl lm).
  set (fm := frame_movement (0, 0)%Q self).
  set (R := tile_rect ts (gx, gy)).
  (* the horizontal query *)
  destruct (single_tile_rects ts (gx, gy) ty v offgrid ltac:(lia) Hsolid
              (PhysicsEntity.pos (moved_x fm self))
              ((gx - 1) * ts + 5) (gy * ts)) as (mx & Hrx & Hmx).
  { cbn. rewrite inject_Z_plus. change (inject_Z 5) with 5%Q. ring. }
  { cbn. reflexivity. }
  assert (Hmx1 : (1 <= mx)%nat).
  { apply Hmx. rewrite Z.div_add_l, Z.div_mul by lia.
    destruct (five_div ts Hts) as [->| ->].
    - exists (1, 0). split; [cbn; tauto|]. cbn [fst snd]. f_equal; lia.
    - exists (0, 0). split; [cbn; tauto|]. cbn [fst snd]. f_equal; lia. }
  destruct mx as [|mx]; [lia|]. clear Hmx Hmx1.
  (* the horizontal loop *)
  assert (HR1 : PhysicsEntity.Rect (moved_x fm self)
                = Rect.mk ((gx - 1) * ts + 5) (gy * ts) ts ts).
  { unfold PhysicsEntity.Rect. cbn [moved_x PhysicsEntity.pos PhysicsEntity.size
      PhysicsEntity.set_pos PhysicsEntity.set_collisions fst snd self fm
      frame_movement PhysicsEntity.velocity].
    rewrite (int_comp _ (inject_Z ((gx - 1) * ts + 5))), !int_inject_Z;
      [reflexivity|].
    rewrite inject_Z_plus. change (inject_Z 5) with 5%Q. ring. }
  set (self1 := PhysicsEntity.set_pos
                  (PhysicsEntity.set_collisions
                     (moved_x fm self)
                     (PhysicsEntity.mkFlags false false true false))
                  (inject_Z (gx * ts - ts), inject_Z (gy * ts))).
  assert (Hx : resolved_x fm (repeat R (S mx)) (moved_x fm self) = self1).
  { unfold resolved_x. cbn [repeat fold_left]. rewrite HR1.
    assert (Hc : Rect.colliderect
                   (Rect.mk ((gx - 1) * ts + 5) (gy * ts) ts ts) R = true).
    { apply colliderect_true; cbn; lia. }
    unfold PhysicsEntity.collide_x at 2. rewrite Hc.
    change (Py.ltb 0%Q (fst fm)) with true.
    change (Py.ltb (fst fm) 0%Q) with false.
    cbv iota beta.
    rewrite fold_left_repeat_fix; [reflexivity|].
    unfold PhysicsEntity.collide_x.
    assert (Hn : Rect.colliderect
                   (Rect.set_right
                      (Rect.mk ((gx - 1) * ts + 5) (gy * ts) ts ts)
                      (Rect.left R)) R = false).
    { apply colliderect_false; cbn; lia. }
    now rewrite Hn. }
  (* the vertical query and loop *)
  destruct (single_tile_rects ts (gx, gy) ty v offgrid ltac:(lia) Hsolid
              (PhysicsEntity.pos (moved_y fm self1))
              (gx * ts - ts) (gy * ts)) as (my & Hry & _).
  { cbn. reflexivity. }
  { cbn. ring. }
  assert (Hy : resolved_y fm (repeat R my) (moved_y fm self1)
               = moved_y fm self1).
  { unfold resolved_y. rewrite fold_left_repeat_fix; [reflexivity|].
    unfold PhysicsEntity.collide_y.
    assert (Hn : Rect.colliderect (PhysicsEntity.Rect (moved_y fm self1)) R
                 = false).
    { unfold PhysicsEntity.Rect. cbn [moved_y self1 PhysicsEntity.pos
        PhysicsEntity.size PhysicsEntity.set_pos PhysicsEntity.set_collisions
        moved_x fst snd self].
      rewrite (int_comp (inject_Z (gy * ts) + snd fm) (inject_Z (gy * ts))),
        !int_inject_Z by (cbn; ring).
      apply colliderect_false; cbn; lia. }
    now rewrite Hn. }
  exists (settled (0, 0)%Q (moved_y fm self1)).
  split; [|split].
  - pose proof (Update_phases (single_tile_map ts (gx, gy) ty v offgrid)
                  (0, 0)%Q self (repeat R (S mx)) (repeat R my)) as Hup.
    cbv zeta in Hup. fold fm in Hup. rewrite Hx, Hy in Hup.
    exact (Hup Hrx Hry).
  - rewrite settled_Rect. unfold PhysicsEntity.Rect, Rect.right, Rect.left.
    cbn [moved_y self1 PhysicsEntity.pos PhysicsEntity.size
         PhysicsEntity.set_pos PhysicsEntity.set_collisions moved_x fst snd
         self Rect.x Rect.w tile_rect].
    rewrite int_inject_Z. unfold R. cbn [tile_rect Rect.x fst]. lia.
  - rewrite settled_collisions. reflexivity.
Qed.

Lemma Update_blocked_right_witness :
  3 <= 16
  /\ exists self',
       PhysicsEntity.Update (single_tile_map 16 (1, 0) "stone" 0 [])
                            (0, 0)%Q (Examples.runner 16)
       = (Py.Ok tt, self')
       /\ Rect.right (PhysicsEntity.Rect self')
          = Rect.left (tile_rect 16 (1, 0))
       /\ PhysicsEntity.right (PhysicsEntity.collisions self') = true.
Proof.
  split; [lia|].
  apply (Update_blocked_right 16 (1, 0) "stone" 0 [] (Examples.runner 16)).
  - lia.
  - reflexivity.
  - reflexivity.
  - reflexivity.
  - reflexivity.
Defined.


(* ================================================================== *)
(** * Truncation, floor division and grid cells *)
(* ================================================================== *)

Section Coordinates.

Lemma Qfloor_ge (k : Z) (x : Q) : (inject_Z k <= x)%Q -> k <= Qfloor x.
Proof. intros H. rewrite <- (Qfloor_Z k). now apply Qfloor_resp_le. Qed.

Lemma Qfloor_lt (k : Z) (x : Q) : (x < inject_Z k)%Q -> Qfloor x < k.
Proof.
  intros H. rewrite Zlt_Qlt.
  eapply Qle_lt_trans; [apply Qfloor_le|exact H].
Qed.




Lemma Qle_bool_false (x y : Q) : Qle_bool x y = false -> (y < x)%Q.
Proof.
  intros H. destruct (Qlt_le_dec y x) as [Hl|Hl]; [exact Hl|].
  apply Qle_bool_iff in Hl. congruence.
Qed.

Lemma ltb_true (x y : Q) : Py.ltb x y = true <-> (x < y)%Q.
Proof.
  unfold Py.ltb. destruct (Qle_bool y x) eqn:E; cbn.
  - apply Qle_bool_iff in E. split; [discriminate|]. intros H. lra.
  - apply Qle_bool_false in E. tauto.
Qed.

Lemma ltb_false (x y : Q) : Py.ltb x y = false <-> (y <= x)%Q.
Proof.
  unfold Py.ltb. destruct (Qle_bool y x) eqn:E; cbn.
  - apply Qle_bool_iff in E. tauto.
  - apply Qle_bool_false in E. split; [discriminate|]. intros H. lra.
Qed.






End Coordinates.


(* ================================================================== *)
(** * The clamping loops on rectangles *)
(* ================================================================== *)

(** The loops act on the local rectangle alone, and the entity's own
    rectangle follows it. *)
Section LoopsOnRects.
Import PhysicsEntity.

Lemma collide_x_fst fm er e R :
  fst (collide_x fm (er, e) R) = clamp_x fm er R.
Proof.
  unfold collide_x, clamp_x. destruct (Rect.colliderect er R); [|reflexivity].
  destruct (Py.ltb 0 fm), (Py.ltb fm 0); reflexivity.
Qed.

Lemma collide_y_fst fm er e R :
  fst (collide_y fm (er, e) R) = clamp_y fm er R.
Proof.
  unfold collide_y, clamp_y. destruct (Rect.colliderect er R); [|reflexivity].
  destruct (Py.ltb 0 fm), (Py.ltb fm 0); reflexivity.
Qed.

Lemma collide_x_Rect fm e R :
  Rect (snd (collide_x fm (Rect e, e) R)) = clamp_x fm (Rect e) R.
Proof.
  unfold collide_x, clamp_x. destruct (Rect.colliderect (Rect e) R);
    [|reflexivity].
  destruct (Py.ltb 0 fm), (Py.ltb fm 0); unfold Rect; cbn;
    rewrite int_inject_Z; reflexivity.
Qed.

Lemma collide_y_Rect fm e R :
  Rect (snd (collide_y fm (Rect e, e) R)) = clamp_y fm (Rect e) R.
Proof.
  unfold collide_y, clamp_y. destruct (Rect.colliderect (Rect e) R);
    [|reflexivity].
  destruct (Py.ltb 0 fm), (Py.ltb fm 0); unfold Rect; cbn;
    rewrite int_inject_Z; reflexivity.
Qed.


Lemma resolved_y_Rect fm : forall rects e,
  Rect (resolved_y fm rects e) = fold_left (clamp_y (snd fm)) rects (Rect e).
Proof.
  unfold resolved_y.
  induction rects as [|R rects IH]; intros e; cbn [fold_left]; [reflexivity|].
  rewrite (surjective_pairing (collide_y (snd fm) (Rect e, e) R)).
  rewrite collide_y_fst.
  rewrite <- (collide_y_Rect (snd fm) e R).
  apply IH.
Qed.

End LoopsOnRects.


(** The horizontal loop in one dimension.  The body, of size [w] by [h]
    and at height [y], stood at [a] clear of every rectangle of the list
    and has moved to [x], at most one tile away.  The loop leaves it
    between [a] and [x], clear of every rectangle of the list. *)
Section ClampX.
Variables (a y w h ts : Z).
Hypothesis Hts : 0 < ts.
Hypothesis Hw : 1 <= w.
Hypothesis Hh : 1 <= h.








End ClampX.


(** The vertical loop in one dimension.  The body, of size [w] by [h]
    and at abscissa [x], stood at [a] clear of every rectangle of the list
    and has moved to [y], at most one tile away.  The loop leaves it
    between [a] and [y], clear of every rectangle of the list. *)
Section ClampY.
Variables (a x w h ts : Z).
Hypothesis Hts : 0 < ts.
Hypothesis Hw : 1 <= w.
Hypothesis Hh : 1 <= h.








End ClampY.


(* ================================================================== *)
(** * What the spatial query finds *)
(* ================================================================== *)

Section SpatialQuery.
Import Py.

Lemma neighbor_offset_covers (cx cy gx gy : Z) :
  cx - 1 <= gx <= cx + 1 -> cy - 1 <= gy <= cy + 1 ->
  exists off, In off NEIGHBOR_OFFSET /\ (cx + fst off, cy + snd off) = (gx, gy).
Proof.
  intros Hx Hy.
  assert (Hgx : gx = cx + -1 \/ gx = cx + 0 \/ gx = cx + 1) by lia.
  assert (Hgy : gy = cy + -1 \/ gy = cy + 0 \/ gy = cy + 1) by lia.
  destruct Hgx as [->|[->| ->]], Hgy as [->|[->| ->]];
    eexists (_, _); (split; [|cbn [fst snd]; reflexivity]);
    unfold NEIGHBOR_OFFSET; cbn [In];
    repeat (try (left; reflexivity); right).
Qed.


End SpatialQuery.


(* ================================================================== *)
(** * Each pass keeps a small, slow body clear of the solid tiles *)
(* ================================================================== *)

Section Passes.
Import Py.

Variable tm : Tilemap.t.
Hypothesis Hts : 0 < Tilemap.tile_size tm.
Hypothesis Hwf : dict_wf (Tilemap.tilemap tm).
Hypothesis Hcons : grid_consistent tm.




End Passes.



(** The other conditions of the amended statement are needed as well.
    A body that starts inside a tile and does not move is left there. *)
Example Update_leaves_embedded_body :
  Rect.colliderect (PhysicsEntity.Rect (Examples.small_body (0, 0)%Q))
                   (tile_rect 16 (0, 0)) = true
  /\ Rect.colliderect
       (PhysicsEntity.Rect
          (state_after (PhysicsEntity.Update
                          (single_tile_map 16 (0, 0) "stone" 0 []) (0, 0)%Q)
                       (Examples.small_body (0, 0)%Q)))
       (tile_rect 16 (0, 0))
     = true.
Proof. split; vm_compute; reflexivity. Qed.

(** A body that starts clear and moves two tiles in one frame lands in
    the tile at (2,0), is pushed back out of it, and is left inside the
    tile at (1,0), which was tested before the push. *)
Example Update_leaves_fast_body_inside :
  Rect.colliderect (PhysicsEntity.Rect (Examples.small_body (32 # 1, 0)%Q))
                   (tile_rect 16 (1, 0)) = false
  /\ Rect.colliderect (PhysicsEntity.Rect (Examples.small_body (32 # 1, 0)%Q))
                      (tile_rect 16 (2, 0)) = false
  /\ PhysicsEntity.Rect
       (state_after (PhysicsEntity.Update Examples.two_tiles (0, 0)%Q)
                    (Examples.small_body (32 # 1, 0)%Q))
     = Rect.mk 24 0 8 15
  /\ Rect.colliderect (Rect.mk 24 0 8 15) (tile_rect 16 (1, 0)) = true.
Proof. repeat split; vm_compute; reflexivity. Qed.

(** A tile stored under the key of another cell is never found. *)
Example Update_misses_misfiled_tile :
  Rect.colliderect (PhysicsEntity.Rect (Examples.runner 16))
                   (tile_rect 16 (1, 0)) = false
  /\ Rect.colliderect
       (PhysicsEntity.Rect
          (state_after (PhysicsEntity.Update Examples.misfiled (0, 0)%Q)
                       (Examples.runner 16)))
       (tile_rect 16 (1, 0))
     = true.
Proof. split; vm_compute; reflexivity. Qed.




(* ================================================================== *)
(** * Maps built in the editor satisfy the grid invariants *)
(* ================================================================== *)

Section EditorInvariants.
Import Py.
Variable V : Type.
Implicit Types (d : dict V) (k : string) (v : V).

Lemma dict_set_In k v d k' v' :
  In (k', v') (dict_set k v d) -> (k', v') = (k, v) \/ In (k', v') d.
Proof.
  induction d as [|[k1 v1] d IH]; cbn [dict_set].
  - intros [H|[]]. left. now symmetry.
  - destruct (String.eqb k1 k) eqn:E.
    + apply String.eqb_eq in E. subst k1.
      intros [H|H]; [left; now symmetry|right; now right].
    + intros [H|H]; [right; now left|].
      destruct (IH H) as [Heq|Hin]; [now left|right; now right].
Qed.

Lemma dict_set_keys_cases k v d :
  dict_keys (dict_set k v d) = dict_keys d
  \/ (~ In k (dict_keys d) /\ dict_keys (dict_set k v d) = dict_keys d ++ [k]).
Proof.
  unfold dict_keys.
  induction d as [|[k1 v1] d IH]; cbn [dict_set map fst app].
  - right. split; [tauto|reflexivity].
  - destruct (String.eqb k1 k) eqn:E; cbn [map fst]; [now left|].
    apply String.eqb_neq in E.
    destruct IH as [IH|[Hn IH]]; rewrite IH.
    + now left.
    + right. split; [|reflexivity]. cbn [In]. tauto.
Qed.

Lemma dict_set_wf k v d : dict_wf d -> dict_wf (dict_set k v d).
Proof.
  unfold dict_wf. intros Hwf.
  destruct (dict_set_keys_cases k v d) as [->|[Hn ->]]; [exact Hwf|].
  apply NoDup_app; [exact Hwf|repeat constructor; cbn; tauto|].
  intros x Hx [<-|[]]. contradiction.
Qed.

Lemma dict_del_In k d k' v' : In (k', v') (dict_del k d) -> In (k', v') d.
Proof.
  induction d as [|[k1 v1] d IH]; cbn [dict_del]; [tauto|].
  destruct (String.eqb k1 k).
  - intros H. now right.
  - intros [H|H]; [now left|right; auto].
Qed.

Lemma dict_del_wf k d : dict_wf d -> dict_wf (dict_del k d).
Proof.
  unfold dict_wf, dict_keys.
  induction d as [|[k1 v1] d IH]; cbn [dict_del map fst]; [tauto|].
  intros Hwf. apply NoDup_cons_iff in Hwf as [Hk Hwf].
  destruct (String.eqb k1 k); [exact Hwf|].
  cbn [map fst]. apply NoDup_cons; [|auto].
  intros Hin. apply Hk. apply in_map_iff in Hin as ([k2 v2] & <- & Hin).
  apply dict_del_In in Hin. now apply (in_map fst) in Hin.
Qed.

End EditorInvariants.

(** Every editor action keeps the keys of the grid distinct and every
    record under the key of its own position. *)
Lemma Editor_apply_invariant (tm : Tilemap.t) (o : Editor.op) :
  Py.dict_wf (Tilemap.tilemap tm) /\ grid_consistent tm ->
  Py.dict_wf (Tilemap.tilemap (Editor.apply tm o))
  /\ grid_consistent (Editor.apply tm o).
Proof.
  intros [Hwf Hcons]. destruct tm as [ts g og].
  unfold grid_consistent in *. cbn [Tilemap.tilemap] in *.
  destruct o as [p ty v|p|tile]; cbn [Editor.apply].
  - unfold Editor.place. cbn [Tilemap.set_tilemap Tilemap.tilemap].
    split; [now apply dict_set_wf|].
    intros loc tile Hin. apply dict_set_In in Hin as [Heq|Hin]; [|auto].
    injection Heq as -> ->. reflexivity.
  - unfold Editor.remove. cbn [Tilemap.tilemap].
    destruct (Py.dict_mem (loc_key p) g);
      cbn [Tilemap.set_tilemap Tilemap.tilemap].
    + split; [now apply dict_del_wf|].
      intros loc tile Hin. apply dict_del_In in Hin. auto.
    + split; assumption.
  - unfold Editor.addDecoration.
    cbn [Tilemap.set_offgrid_tiles Tilemap.tilemap].
    split; assumption.
Qed.

Lemma Editor_build_invariant (tile_size : Z) (ops : list Editor.op) :
  Py.dict_wf (Tilemap.tilemap (Editor.build tile_size ops))
  /\ grid_consistent (Editor.build tile_size ops).
Proof.
  unfold Editor.build.
  assert (H0 : Py.dict_wf (Tilemap.tilemap (Tilemap.init tile_size))
               /\ grid_consistent (Tilemap.init tile_size)).
  { split; [constructor|]. intros loc tile []. }
  revert H0. generalize (Tilemap.init tile_size).
  induction ops as [|o ops IH]; intros tm Htm; cbn [fold_left]; [exact Htm|].
  apply IH. now apply Editor_apply_invariant.
Qed.


From Stdlib Require Import Ascii DecimalZ DecimalPos DecimalFacts.

(* ================================================================== *)
(** * Grid keys *)
(* ================================================================== *)

Section Keys.

(** [str] of an integer can be read back. *)
Lemma str_inj (a b : Z) : Py.str a = Py.str b -> a = b.
Proof.
  unfold Py.str. intros H.
  assert (Hn : forall n, NilZero.int_of_string
                           (NilZero.string_of_int (Z.to_int n))
                         = Some (Z.to_int n)).
  { intros n. apply NilZero.isi; destruct n as [|p|p]; cbn;
      try discriminate; intros [= Hp];
      exact (Unsigned.to_uint_nonnil p Hp). }
  apply DecimalZ.to_int_inj.
  pose proof (Hn a) as Ha. rewrite H, Hn in Ha. congruence.
Qed.

(** No semicolon occurs in [str n]. *)
Lemma string_of_uint_no_semicolon (d : Decimal.uint) (s1 s2 : string) :
  NilEmpty.string_of_uint d <> (s1 ++ String ";" s2)%string.
Proof.
  revert s1. induction d; intros [|c s1]; cbn; try discriminate;
    intros [= Hc Hrest]; now apply (IHd s1).
Qed.

Lemma str_no_semicolon (n : Z) (s1 s2 : string) :
  Py.str n <> (s1 ++ String ";" s2)%string.
Proof.
  unfold Py.str, NilZero.string_of_int, NilZero.string_of_uint.
  destruct (Z.to_int n) as [d|d].
  - destruct d; try apply string_of_uint_no_semicolon.
    destruct s1 as [|c [|c' s1]]; cbn; discriminate.
  - destruct s1 as [|c s1]; cbn; [discriminate|].
    intros [= Hc Hrest]. revert Hrest.
    destruct d; try apply string_of_uint_no_semicolon.
    destruct s1 as [|c' [|c'' s1]]; cbn; discriminate.
Qed.

Lemma append_semicolon_inj : forall (s1 t1 s2 t2 : string),
  (forall u v, s1 <> (u ++ String ";" v)%string) ->
  (forall u v, t1 <> (u ++ String ";" v)%string) ->
  (s1 ++ String ";" s2 = t1 ++ String ";" t2)%string ->
  s1 = t1 /\ s2 = t2.
Proof.
  induction s1 as [|c s1 IH]; intros [|c' t1] s2 t2 Hs Ht; cbn.
  - intros [= ->]. auto.
  - intros [= <- _]. exfalso. apply (Ht EmptyString t1). reflexivity.
  - intros [= -> _]. exfalso. apply (Hs EmptyString s1). reflexivity.
  - intros [= -> Hrest].
    destruct (IH t1 s2 t2) as [-> ->]; auto.
    + intros u v Hu. apply (Hs (String c' u) v). cbn. now rewrite Hu.
    + intros u v Hu. apply (Ht (String c' u) v). cbn. now rewrite Hu.
Qed.

End Keys.

Lemma loc_key_inj_pair (p q : Z * Z) : loc_key p = loc_key q -> p = q.
Proof.
  destruct p as [a b], q as [c d]. unfold loc_key. cbn [fst snd].
  intros H.
  destruct (append_semicolon_inj (Py.str a) (Py.str c) (Py.str b) (Py.str d))
    as [Ha Hb].
  - intros u v. apply str_no_semicolon.
  - intros u v. apply str_no_semicolon.
  - exact H.
  - apply str_inj in Ha. apply str_inj in Hb. now subst.
Qed.

(** X1.  The key ["x;y"] determines the cell: two different grid
    coordinates never share a key, whatever their signs. *)
Theorem loc_key_injective (p q : Z * Z) : p <> q -> loc_key p <> loc_key q.
Proof. intros Hne Heq. apply Hne. now apply loc_key_inj_pair. Qed.

Lemma loc_key_injective_witness :
  (1, -10) <> (-1, 10) /\ loc_key (1, -10) <> loc_key (-1, 10).
Proof.
  assert (H : (1, -10) <> (-1, 10)) by discriminate.
  split; [exact H|]. exact (loc_key_injective (1, -10) (-1, 10) H).
Defined.



(* ================================================================== *)
(** * Cells and the spatial queries *)
(* ================================================================== *)

Section Cells.
Import Py.

Lemma floordiv_cell (x : Q) (ts c : Z) :
  0 < ts -> floordiv x ts = Ok c ->
  (inject_Z (c * ts) <= x)%Q /\ (x < inject_Z ((c + 1) * ts))%Q.
Proof.
  intros Hts. unfold floordiv.
  destruct (ts =? 0) eqn:E; [apply Z.eqb_eq in E; lia|].
  set (q := (x / inject_Z ts)%Q). intros Hc.
  assert (Hcq : c = Qfloor q) by congruence. clear Hc. subst c.
  assert (Hq : (0 < inject_Z ts)%Q).
  { change 0%Q with (inject_Z 0). now rewrite <- Zlt_Qlt. }
  assert (Hx : (q * inject_Z ts == x)%Q).
  { unfold q. field. lra. }
  assert (Hlo : (inject_Z (Qfloor q) * inject_Z ts <= q * inject_Z ts)%Q).
  { apply Qmult_le_compat_r; [apply Qfloor_le|lra]. }
  assert (Hhi : (q * inject_Z ts < inject_Z (Qfloor q + 1) * inject_Z ts)%Q).
  { apply Qmult_lt_compat_r; [lra|]. apply Qlt_floor. }
  rewrite !inject_Z_mult. split; lra.
Qed.

Lemma floordiv_unique (x : Q) (ts c : Z) :
  0 < ts ->
  (inject_Z (c * ts) <= x)%Q -> (x < inject_Z ((c + 1) * ts))%Q ->
  floordiv x ts = Ok c.
Proof.
  intros Hts Hlo Hhi. unfold floordiv.
  destruct (ts =? 0) eqn:E; [apply Z.eqb_eq in E; lia|].
  assert (Hq : (0 < inject_Z ts)%Q).
  { change 0%Q with (inject_Z 0). now rewrite <- Zlt_Qlt. }
  rewrite inject_Z_mult in Hlo, Hhi.
  f_equal.
  assert (H1 : c <= Qfloor (x / inject_Z ts)).
  { apply Qfloor_ge. apply Qle_shift_div_l; assumption. }
  assert (H2 : Qfloor (x / inject_Z ts) < c + 1).
  { apply Qfloor_lt. apply Qlt_shift_div_r; assumption. }
  lia.
Qed.

Lemma floordiv_total (x : Q) (ts : Z) :
  ts <> 0 -> exists c, floordiv x ts = Ok c.
Proof.
  intros H. unfold floordiv. apply Z.eqb_neq in H. rewrite H. eauto.
Qed.

Lemma neighbor_offset_range (off : Z * Z) :
  In off NEIGHBOR_OFFSET -> -1 <= fst off <= 1 /\ -1 <= snd off <= 1.
Proof.
  unfold NEIGHBOR_OFFSET. cbn [In].
  intros H. repeat (destruct H as [<-|H]; [cbn; lia|]). contradiction.
Qed.

Lemma flat_map_length_le A B (f : A -> list B) (l : list A) :
  (forall x, (List.length (f x) <= 1)%nat) ->
  (List.length (flat_map f l) <= List.length l)%nat.
Proof.
  intros Hf. induction l as [|x l IH]; cbn [flat_map List.length]; [lia|].
  rewrite length_app. specialize (Hf x). lia.
Qed.

(** What [Tiles_Around] returns, cell by cell. *)
Lemma Tiles_Around_block (tm : Tilemap.t) (p : Q * Q) (cx cy : Z) :
  floordiv (fst p) (Tilemap.tile_size tm) = Ok cx ->
  floordiv (snd p) (Tilemap.tile_size tm) = Ok cy ->
  exists tiles,
    Tilemap.Tiles_Around tm p = Ok tiles
    /\ (List.length tiles <= 9)%nat
    /\ (forall tile, In tile tiles ->
          exists off,
            In off NEIGHBOR_OFFSET
            /\ dict_get (loc_key (cx + fst off, cy + snd off))
                        (Tilemap.tilemap tm) = Some tile)
    /\ (forall off tile,
          In off NEIGHBOR_OFFSET ->
          dict_get (loc_key (cx + fst off, cy + snd off))
                   (Tilemap.tilemap tm) = Some tile ->
          In tile tiles).
Proof.
  intros Hcx Hcy. unfold Tilemap.Tiles_Around. rewrite Hcx, Hcy.
  eexists. split; [reflexivity|]. split; [|split].
  - etransitivity.
    + apply flat_map_length_le. intros off.
      destruct (dict_get _ _); cbn; lia.
    + cbn. lia.
  - intros tile Hin. apply in_flat_map in Hin as (off & Hoff & Hin).
    exists off. split; [exact Hoff|].
    destruct (dict_get _ (Tilemap.tilemap tm)) as [t'|]; [|contradiction].
    destruct Hin as [->|[]]. reflexivity.
  - intros off tile Hoff Hget. apply in_flat_map. exists off.
    split; [exact Hoff|]. cbv zeta. rewrite Hget. now left.
Qed.

(** On a consistent grid the records found under the keys of the block
    are the records whose position lies in the block. *)
Lemma block_lookup (tm : Tilemap.t) (cx cy : Z) (tile : TileRecord Z) :
  dict_wf (Tilemap.tilemap tm) -> grid_consistent tm ->
  ((exists off,
       In off NEIGHBOR_OFFSET
       /\ dict_get (loc_key (cx + fst off, cy + snd off))
                   (Tilemap.tilemap tm) = Some tile)
   <-> (exists loc, In (loc, tile) (Tilemap.tilemap tm))
       /\ in_block (cx, cy) (pos tile)).
Proof.
  intros Hwf Hcons. split.
  - intros (off & Hoff & Hget). apply dict_get_In in Hget.
    pose proof (Hcons _ _ Hget) as Hkey.
    apply loc_key_inj_pair in Hkey.
    split; [eauto|].
    destruct (neighbor_offset_range off Hoff) as [Hx Hy].
    unfold in_block. rewrite <- Hkey. cbn [fst snd]. lia.
  - intros ([loc Hin] & [Hx Hy]). cbn [fst snd] in Hx, Hy.
    destruct (neighbor_offset_covers cx cy (fst (pos tile)) (snd (pos tile))
                Hx Hy) as (off & Hoff & Heq).
    exists off. split; [exact Hoff|]. rewrite Heq.
    rewrite <- surjective_pairing, <- (Hcons loc tile Hin).
    now apply In_dict_get.
Qed.

End Cells.



(** Hypotheses of the statements on a map with one tile. *)
Ltac single_tile_wf :=
  unfold single_tile_map; cbn [Tilemap.tilemap]; wf_by_computation.
Ltac single_tile_consistent :=
  let loc := fresh "loc" in
  let tile := fresh "tile" in
  let H := fresh "H" in
  intros loc tile [H|[]]; injection H as <- <-; reflexivity.

(** X2.  [Tiles_Around] raises [ZeroDivisionError] on a map of tile size
    zero and returns otherwise.  It returns at most nine records, all of
    them records of the grid; with a positive tile size the block it
    inspects is centred on the cell that contains the position; and on a
    grid that keeps every record under the key of its position it returns
    exactly the records whose cell lies in that 3x3 block. *)
Theorem Tiles_Around_spec (tm : Tilemap.t) (p : Q * Q) :
  (Tilemap.tile_size tm = 0 ->
   Tilemap.Tiles_Around tm p = Py.Raise Py.ZeroDivisionError)
  /\ (Tilemap.tile_size tm <> 0 ->
      exists c tiles,
        Tilemap.Tiles_Around tm p = Py.Ok tiles
        /\ (List.length tiles <= 9)%nat
        /\ (forall tile, In tile tiles ->
              exists loc, In (loc, tile) (Tilemap.tilemap tm))
        /\ (0 < Tilemap.tile_size tm ->
            covers (tile_rect (Tilemap.tile_size tm) c) p)
        /\ (Py.dict_wf (Tilemap.tilemap tm) -> grid_consistent tm ->
            forall tile,
              In tile tiles
              <-> (exists loc, In (loc, tile) (Tilemap.tilemap tm))
                  /\ in_block c (pos tile))).
Proof.
  split.
  - intros Hz. unfold Tilemap.Tiles_Around, Py.floordiv. now rewrite Hz.
  - intros Hnz.
    destruct (floordiv_total (fst p) _ Hnz) as [cx Hcx].
    destruct (floordiv_total (snd p) _ Hnz) as [cy Hcy].
    destruct (Tiles_Around_block tm p cx cy Hcx Hcy)
      as (tiles & Hrun & Hlen & Hsound & Hcomplete).
    exists (cx, cy), tiles. split; [exact Hrun|]. split; [exact Hlen|].
    split; [|split].
    + intros tile Hin. destruct (Hsound tile Hin) as (off & _ & Hget).
      eexists. apply dict_get_In. exact Hget.
    + intros Hpos.
      destruct (floordiv_cell _ _ _ Hpos Hcx) as [Hx1 Hx2].
      destruct (floordiv_cell _ _ _ Hpos Hcy) as [Hy1 Hy2].
      unfold covers, tile_rect. cbn [Rect.x Rect.y Rect.w Rect.h fst snd].
      replace (cx * Tilemap.tile_size tm + Tilemap.tile_size tm)
        with ((cx + 1) * Tilemap.tile_size tm) by ring.
      replace (cy * Tilemap.tile_size tm + Tilemap.tile_size tm)
        with ((cy + 1) * Tilemap.tile_size tm) by ring.
      auto.
    + intros Hwf Hcons tile.
      rewrite <- (block_lookup tm cx cy tile Hwf Hcons).
      split; [apply Hsound|].
      intros (off & Hoff & Hget). exact (Hcomplete off tile Hoff Hget).
Qed.

Lemma Tiles_Around_spec_witness :
  Tilemap.tile_size (single_tile_map 16 (1, 0) "stone" 0 []) <> 0
  /\ exists c tiles,
       Tilemap.Tiles_Around (single_tile_map 16 (1, 0) "stone" 0 [])
                            (5 # 2, 3 # 1)%Q
       = Py.Ok tiles
       /\ (List.length tiles <= 9)%nat
       /\ (In (mkTile "stone" 0 (1, 0)) tiles
           <-> (exists loc,
                  In (loc, mkTile "stone" 0 (1, 0))
                     (Tilemap.tilemap (single_tile_map 16 (1, 0) "stone" 0 [])))
               /\ in_block c (1, 0)).
Proof.
  assert (Hnz : Tilemap.tile_size (single_tile_map 16 (1, 0) "stone" 0 []) <> 0)
    by discriminate.
  split; [exact Hnz|].
  destruct (proj2 (Tiles_Around_spec (single_tile_map 16 (1, 0) "stone" 0 [])
                                     (5 # 2, 3 # 1)%Q) Hnz)
    as (c & tiles & Hrun & Hlen & _ & _ & Hexact).
  exists c, tiles. split; [exact Hrun|]. split; [exact Hlen|].
  apply (Hexact ltac:(single_tile_wf) ltac:(single_tile_consistent)
                (mkTile "stone" 0 (1, 0))).
Defined.

(** X3.  On a map of positive tile size whose grid keeps every record
    under the key of its position, [Physics_Rects_Around] returns at most
    nine rectangles, and they are exactly the tile-sized, grid-aligned
    rectangles of the solid tiles whose cell lies in the 3x3 block around
    the cell containing the position; tiles of other types never yield a
    rectangle. *)
Theorem Physics_Rects_Around_exact (tm : Tilemap.t) (p : Q * Q) :
  0 < Tilemap.tile_size tm ->
  Py.dict_wf (Tilemap.tilemap tm) ->
  grid_consistent tm ->
  exists c rects,
    Tilemap.Physics_Rects_Around tm p = Py.Ok rects
    /\ covers (tile_rect (Tilemap.tile_size tm) c) p
    /\ (List.length rects <= 9)%nat
    /\ forall R,
         In R rects
         <-> exists loc tile,
               In (loc, tile) (Tilemap.tilemap tm)
               /\ type_in (type tile) PHYSICS_TILES = true
               /\ in_block c (pos tile)
               /\ R = tile_rect (Tilemap.tile_size tm) (pos tile).
Proof.
  intros Hpos Hwf Hcons.
  assert (Hnz : Tilemap.tile_size tm <> 0) by lia.
  destruct (floordiv_total (fst p) _ Hnz) as [cx Hcx].
  destruct (floordiv_total (snd p) _ Hnz) as [cy Hcy].
  destruct (Tiles_Around_block tm p cx cy Hcx Hcy)
    as (tiles & Hrun & Hlen & Hsound & Hcomplete).
  unfold Tilemap.Physics_Rects_Around. rewrite Hrun.
  exists (cx, cy). eexists. split; [reflexivity|]. split; [|split].
  - destruct (floordiv_cell _ _ _ Hpos Hcx) as [Hx1 Hx2].
    destruct (floordiv_cell _ _ _ Hpos Hcy) as [Hy1 Hy2].
    unfold covers, tile_rect. cbn [Rect.x Rect.y Rect.w Rect.h fst snd].
    replace (cx * Tilemap.tile_size tm + Tilemap.tile_size tm)
      with ((cx + 1) * Tilemap.tile_size tm) by ring.
    replace (cy * Tilemap.tile_size tm + Tilemap.tile_size tm)
      with ((cy + 1) * Tilemap.tile_size tm) by ring.
    auto.
  - etransitivity; [|exact Hlen].
    apply flat_map_length_le. intros tile.
    destruct (type_in _ _); cbn; lia.
  - intros R. rewrite in_flat_map. split.
    + intros (tile & Hin & HR).
      destruct (type_in (type tile) PHYSICS_TILES) eqn:Hsolid;
        [|contradiction].
      destruct HR as [<-|[]].
      destruct (proj1 (block_lookup tm cx cy tile Hwf Hcons)
                      (Hsound tile Hin)) as ([loc Hloc] & Hblock).
      exists loc, tile. split; [exact Hloc|]. split; [exact Hsolid|].
      split; [exact Hblock|reflexivity].
    + intros (loc & tile & Hin & Hsolid & Hblock & ->).
      exists tile. split.
      * destruct (proj2 (block_lookup tm cx cy tile Hwf Hcons))
          as (off & Hoff & Hget); [eauto|].
        exact (Hcomplete off tile Hoff Hget).
      * rewrite Hsolid. now left.
Qed.

Lemma Physics_Rects_Around_exact_witness :
  0 < Tilemap.tile_size (single_tile_map 16 (1, 0) "stone" 0 [])
  /\ exists c rects,
       Tilemap.Physics_Rects_Around (single_tile_map 16 (1, 0) "stone" 0 [])
                                    (5 # 2, 3 # 1)%Q
       = Py.Ok rects
       /\ covers (tile_rect 16 c) (5 # 2, 3 # 1)%Q
       /\ (List.length rects <= 9)%nat.
Proof.
  split; [reflexivity|].
  destruct (Physics_Rects_Around_exact
              (single_tile_map 16 (1, 0) "stone" 0 []) (5 # 2, 3 # 1)%Q
              eq_refl ltac:(single_tile_wf) ltac:(single_tile_consistent))
    as (c & rects & Hrun & Hcov & Hlen & _).
  exists c, rects. auto.
Defined.

(** X4.  [Solid_Check] raises [ZeroDivisionError] on a map of tile size
    zero.  On a map of positive tile size whose grid keeps every record
    under the key of its position it returns the solid tile whose
    rectangle contains the point, and [None] when the cell of the point is
    empty or holds a tile that is not solid. *)
Theorem Solid_Check_spec (tm : Tilemap.t) (p : Q * Q) :
  (Tilemap.tile_size tm = 0 ->
   Tilemap.Solid_Check tm p = Py.Raise Py.ZeroDivisionError)
  /\ (0 < Tilemap.tile_size tm ->
      Py.dict_wf (Tilemap.tilemap tm) -> grid_consistent tm ->
      exists r,
        Tilemap.Solid_Check tm p = Py.Ok r
        /\ forall tile,
             r = Some tile
             <-> (exists loc, In (loc, tile) (Tilemap.tilemap tm))
                 /\ type_in (type tile) PHYSICS_TILES = true
                 /\ covers (tile_rect (Tilemap.tile_size tm) (pos tile)) p).
Proof.
  split.
  - intros Hz. unfold Tilemap.Solid_Check, Py.floordiv. now rewrite Hz.
  - intros Hpos Hwf Hcons.
    assert (Hnz : Tilemap.tile_size tm <> 0) by lia.
    destruct (floordiv_total (fst p) _ Hnz) as [cx Hcx].
    destruct (floordiv_total (snd p) _ Hnz) as [cy Hcy].
    unfold Tilemap.Solid_Check. rewrite Hcx, Hcy. cbv zeta.
    assert (Hcell : forall tile,
               covers (tile_rect (Tilemap.tile_size tm) (pos tile)) p
               <-> pos tile = (cx, cy)).
    { intros tile. unfold covers, tile_rect.
      cbn [Rect.x Rect.y Rect.w Rect.h].
      replace (fst (pos tile) * Tilemap.tile_size tm + Tilemap.tile_size tm)
        with ((fst (pos tile) + 1) * Tilemap.tile_size tm) by ring.
      replace (snd (pos tile) * Tilemap.tile_size tm + Tilemap.tile_size tm)
        with ((snd (pos tile) + 1) * Tilemap.tile_size tm) by ring.
      split.
      - intros (Hx1 & Hx2 & Hy1 & Hy2).
        pose proof (floordiv_unique _ _ _ Hpos Hx1 Hx2) as Hx.
        pose proof (floordiv_unique _ _ _ Hpos Hy1 Hy2) as Hy.
        rewrite Hcx in Hx. rewrite Hcy in Hy.
        injection Hx as Hx. injection Hy as Hy.
        rewrite (surjective_pairing (pos tile)). congruence.
      - intros ->. cbn [fst snd].
        destruct (floordiv_cell _ _ _ Hpos Hcx).
        destruct (floordiv_cell _ _ _ Hpos Hcy). auto. }
    destruct (Py.dict_get (loc_key (cx, cy)) (Tilemap.tilemap tm))
      as [t|] eqn:Hget.
    + pose proof (dict_get_In _ _ _ _ Hget) as Hin.
      pose proof (Hcons _ _ Hin) as Hkey. apply loc_key_inj_pair in Hkey.
      destruct (type_in (type t) PHYSICS_TILES) eqn:Hsolid.
      * exists (Some t). split; [reflexivity|]. intros tile. split.
        -- intros [= <-]. split; [eauto|]. split; [exact Hsolid|].
           apply Hcell. now symmetry.
        -- intros ([loc Hloc] & _ & Hcov). apply Hcell in Hcov.
           pose proof (Hcons _ _ Hloc) as Hk. rewrite Hcov in Hk. subst loc.
           apply (In_dict_get _ _ _ _ Hwf) in Hloc. congruence.
      * exists None. split; [reflexivity|]. intros tile. split;
          [discriminate|].
        intros ([loc Hloc] & Hs & Hcov). apply Hcell in Hcov.
        pose proof (Hcons _ _ Hloc) as Hk. rewrite Hcov in Hk. subst loc.
        apply (In_dict_get _ _ _ _ Hwf) in Hloc. congruence.
    + exists None. split; [reflexivity|]. intros tile. split;
        [discriminate|].
      intros ([loc Hloc] & _ & Hcov). apply Hcell in Hcov.
      pose proof (Hcons _ _ Hloc) as Hk. rewrite Hcov in Hk. subst loc.
      apply (In_dict_get _ _ _ _ Hwf) in Hloc. congruence.
Qed.

Lemma Solid_Check_spec_witness :
  0 < Tilemap.tile_size (single_tile_map 16 (1, 0) "stone" 0 [])
  /\ exists r,
       Tilemap.Solid_Check (single_tile_map 16 (1, 0) "stone" 0 [])
                           (41 # 2, 3 # 1)%Q
       = Py.Ok r
       /\ forall tile,
            r = Some tile
            <-> (exists loc,
                   In (loc, tile)
                      (Tilemap.tilemap (single_tile_map 16 (1, 0) "stone" 0 [])))
                /\ type_in (type tile) PHYSICS_TILES = true
                /\ covers (tile_rect 16 (pos tile)) (41 # 2, 3 # 1)%Q.
Proof.
  split; [reflexivity|].
  exact (proj2 (Solid_Check_spec (single_tile_map 16 (1, 0) "stone" 0 [])
                                 (41 # 2, 3 # 1)%Q)
               eq_refl ltac:(single_tile_wf) ltac:(single_tile_consistent)).
Defined.



(* ================================================================== *)
(** * The collision flags of [Update] *)
(* ================================================================== *)

Section Flags.
Import Py.

Lemma ltb_exclusive (fm : Q) : ltb 0 fm = true -> ltb fm 0 = true -> False.
Proof. rewrite !ltb_true. lra. Qed.

(** The horizontal loop leaves [up] and [down] alone, the vertical loop
    [right] and [left]. *)
Lemma collide_x_up_down fm : forall rects st,
  PhysicsEntity.up
    (PhysicsEntity.collisions
       (snd (fold_left (PhysicsEntity.collide_x fm) rects st)))
  = PhysicsEntity.up (PhysicsEntity.collisions (snd st))
  /\ PhysicsEntity.down
       (PhysicsEntity.collisions
          (snd (fold_left (PhysicsEntity.collide_x fm) rects st)))
     = PhysicsEntity.down (PhysicsEntity.collisions (snd st)).
Proof.
  induction rects as [|r rects IH]; intros [er e]; [split; reflexivity|].
  cbn [fold_left]. destruct (IH (PhysicsEntity.collide_x fm (er, e) r))
    as [-> ->].
  unfold PhysicsEntity.collide_x.
  destruct (Rect.colliderect er r); [|split; reflexivity].
  destruct (ltb 0 fm), (ltb fm 0); split; reflexivity.
Qed.

Lemma collide_y_right_left fm : forall rects st,
  PhysicsEntity.right
    (PhysicsEntity.collisions
       (snd (fold_left (PhysicsEntity.collide_y fm) rects st)))
  = PhysicsEntity.right (PhysicsEntity.collisions (snd st))
  /\ PhysicsEntity.left
       (PhysicsEntity.collisions
          (snd (fold_left (PhysicsEntity.collide_y fm) rects st)))
     = PhysicsEntity.left (PhysicsEntity.collisions (snd st)).
Proof.
  induction rects as [|r rects IH]; intros [er e]; [split; reflexivity|].
  cbn [fold_left]. destruct (IH (PhysicsEntity.collide_y fm (er, e) r))
    as [-> ->].
  unfold PhysicsEntity.collide_y.
  destruct (Rect.colliderect er r); [|split; reflexivity].
  destruct (ltb 0 fm), (ltb fm 0); split; reflexivity.
Qed.

(** A flag raised by the horizontal loop records the direction of the
    frame movement and leaves the local rectangle flush with one of the
    rectangles of the loop. *)
Lemma collide_x_contact fm (all : list Rect.t) : forall rects st,
  incl rects all ->
  (PhysicsEntity.right (PhysicsEntity.collisions (snd st)) = true ->
   (0 < fm)%Q
   /\ exists R, In R all /\ Rect.right (fst st) = Rect.left R) ->
  (PhysicsEntity.left (PhysicsEntity.collisions (snd st)) = true ->
   (fm < 0)%Q
   /\ exists R, In R all /\ Rect.left (fst st) = Rect.right R) ->
  let st' := fold_left (PhysicsEntity.collide_x fm) rects st in
  (PhysicsEntity.right (PhysicsEntity.collisions (snd st')) = true ->
   (0 < fm)%Q
   /\ exists R, In R all /\ Rect.right (fst st') = Rect.left R)
  /\ (PhysicsEntity.left (PhysicsEntity.collisions (snd st')) = true ->
      (fm < 0)%Q
      /\ exists R, In R all /\ Rect.left (fst st') = Rect.right R).
Proof.
  induction rects as [|r rects IH]; intros [er e] Hincl Hr Hl;
    cbn [fold_left]; [split; assumption|].
  assert (Hin : In r all) by (apply Hincl; now left).
  apply IH; [intros x Hx; apply Hincl; now right| |];
    cbn [fst snd] in Hr, Hl; unfold PhysicsEntity.collide_x;
    destruct (Rect.colliderect er r); try assumption;
    destruct (ltb 0 fm) eqn:E1, (ltb fm 0) eqn:E2;
    try (exfalso; exact (ltb_exclusive fm E1 E2));
    cbn [fst snd PhysicsEntity.set_pos PhysicsEntity.set_collisions
         PhysicsEntity.collisions PhysicsEntity.right PhysicsEntity.left];
    intros H.
  - split; [now apply ltb_true|]. exists r. split; [exact Hin|].
    unfold Rect.right, Rect.set_right, Rect.left. cbn. lia.
  - destruct (Hr H) as [H0 _]. apply ltb_false in E1. lra.
  - exact (Hr H).
  - destruct (Hl H) as [H0 _]. apply ltb_false in E2. lra.
  - split; [now apply ltb_true|]. exists r. split; [exact Hin|].
    reflexivity.
  - exact (Hl H).
Qed.

Lemma collide_y_contact fm (all : list Rect.t) : forall rects st,
  incl rects all ->
  (PhysicsEntity.down (PhysicsEntity.collisions (snd st)) = true ->
   (0 < fm)%Q
   /\ exists R, In R all /\ Rect.bottom (fst st) = Rect.top R) ->
  (PhysicsEntity.up (PhysicsEntity.collisions (snd st)) = true ->
   (fm < 0)%Q
   /\ exists R, In R all /\ Rect.top (fst st) = Rect.bottom R) ->
  let st' := fold_left (PhysicsEntity.collide_y fm) rects st in
  (PhysicsEntity.down (PhysicsEntity.collisions (snd st')) = true ->
   (0 < fm)%Q
   /\ exists R, In R all /\ Rect.bottom (fst st') = Rect.top R)
  /\ (PhysicsEntity.up (PhysicsEntity.collisions (snd st')) = true ->
      (fm < 0)%Q
      /\ exists R, In R all /\ Rect.top (fst st') = Rect.bottom R).
Proof.
  induction rects as [|r rects IH]; intros [er e] Hincl Hr Hl;
    cbn [fold_left]; [split; assumption|].
  assert (Hin : In r all) by (apply Hincl; now left).
  apply IH; [intros x Hx; apply Hincl; now right| |];
    cbn [fst snd] in Hr, Hl; unfold PhysicsEntity.collide_y;
    destruct (Rect.colliderect er r); try assumption;
    destruct (ltb 0 fm) eqn:E1, (ltb fm 0) eqn:E2;
    try (exfalso; exact (ltb_exclusive fm E1 E2));
    cbn [fst snd PhysicsEntity.set_pos PhysicsEntity.set_collisions
         PhysicsEntity.collisions PhysicsEntity.down PhysicsEntity.up];
    intros H.
  - split; [now apply ltb_true|]. exists r. split; [exact Hin|].
    unfold Rect.bottom, Rect.set_bottom, Rect.top. cbn. lia.
  - destruct (Hr H) as [H0 _]. apply ltb_false in E1. lra.
  - exact (Hr H).
  - destruct (Hl H) as [H0 _]. apply ltb_false in E2. lra.
  - split; [now apply ltb_true|]. exists r. split; [exact Hin|].
    reflexivity.
  - exact (Hl H).
Qed.

(** The local rectangle of a loop is the rectangle of the entity. *)
Lemma collide_x_tracks fm : forall rects e,
  fst (fold_left (PhysicsEntity.collide_x fm) rects (PhysicsEntity.Rect e, e))
  = PhysicsEntity.Rect
      (snd (fold_left (PhysicsEntity.collide_x fm) rects
                      (PhysicsEntity.Rect e, e))).
Proof.
  induction rects as [|r rects IH]; intros e; cbn [fold_left]; [reflexivity|].
  rewrite (surjective_pairing
             (PhysicsEntity.collide_x fm (PhysicsEntity.Rect e, e) r)).
  rewrite collide_x_fst, <- (collide_x_Rect fm e r). apply IH.
Qed.

Lemma collide_y_tracks fm : forall rects e,
  fst (fold_left (PhysicsEntity.collide_y fm) rects (PhysicsEntity.Rect e, e))
  = PhysicsEntity.Rect
      (snd (fold_left (PhysicsEntity.collide_y fm) rects
                      (PhysicsEntity.Rect e, e))).
Proof.
  induction rects as [|r rects IH]; intros e; cbn [fold_left]; [reflexivity|].
  rewrite (surjective_pairing
             (PhysicsEntity.collide_y fm (PhysicsEntity.Rect e, e) r)).
  rewrite collide_y_fst, <- (collide_y_Rect fm e r). apply IH.
Qed.

(** The vertical pass moves the rectangle along its column. *)
Lemma clamp_y_column fm : forall rects er,
  Rect.x (fold_left (clamp_y fm) rects er) = Rect.x er
  /\ Rect.w (fold_left (clamp_y fm) rects er) = Rect.w er.
Proof.
  induction rects as [|r rects IH]; intros er; cbn [fold_left];
    [split; reflexivity|].
  destruct (IH (clamp_y fm er r)) as [-> ->]. unfold clamp_y.
  destruct (Rect.colliderect er r); [|split; reflexivity].
  destruct (ltb 0 fm), (ltb fm 0); split; reflexivity.
Qed.

Lemma y_pass_column fm rects e :
  Rect.x (PhysicsEntity.Rect (resolved_y fm rects (moved_y fm e)))
  = Rect.x (PhysicsEntity.Rect e)
  /\ Rect.w (PhysicsEntity.Rect (resolved_y fm rects (moved_y fm e)))
     = Rect.w (PhysicsEntity.Rect e).
Proof.
  rewrite resolved_y_Rect.
  destruct (clamp_y_column (snd fm) rects
              (PhysicsEntity.Rect (moved_y fm e))) as [-> ->].
  split; reflexivity.
Qed.

(** The rectangles of a spatial query are rectangles of solid tiles. *)
Lemma Physics_Rects_Around_solid (tm : Tilemap.t) p rects R :
  Tilemap.Physics_Rects_Around tm p = Ok rects -> In R rects ->
  exists loc tile,
    In (loc, tile) (Tilemap.tilemap tm)
    /\ type_in (type tile) PHYSICS_TILES = true
    /\ R = tile_rect (Tilemap.tile_size tm) (pos tile).
Proof.
  unfold Tilemap.Physics_Rects_Around.
  destruct (Tilemap.Tiles_Around tm p) as [tiles|e] eqn:E; [|discriminate].
  intros H Hin.
  apply (f_equal (fun r => match r with Ok l => l | Raise _ => [] end)) in H.
  cbv beta iota in H. rewrite <- H in Hin.
  apply in_flat_map in Hin as (tile & Htile & HR).
  destruct (type_in (type tile) PHYSICS_TILES) eqn:Hsolid; [|contradiction].
  destruct HR as [<-|[]].
  destruct (Tiles_Around_In tm p tiles tile E Htile) as [loc Hloc].
  exists loc, tile. split; [exact Hloc|]. split; [exact Hsolid|reflexivity].
Qed.

End Flags.

(** X5.  On a map of non-zero tile size [Update] returns, and a collision
    flag it reports tells the direction of the frame movement (input plus
    velocity) on that axis: [right] only when it is positive, [left] only
    when negative, [down] only when the vertical one is positive, [up]
    only when negative.  So [right] and [left] are never both set, nor
    [down] and [up], and an axis without frame movement reports nothing. *)
Theorem Update_flags_directional
        (tm : Tilemap.t) (movement : Q * Q) (self : PhysicsEntity.t) :
  Tilemap.tile_size tm <> 0 ->
  exists self',
    PhysicsEntity.Update tm movement self = (Py.Ok tt, self')
    /\ (PhysicsEntity.right (PhysicsEntity.collisions self') = true ->
        (0 < fst (frame_movement movement self))%Q)
    /\ (PhysicsEntity.left (PhysicsEntity.collisions self') = true ->
        (fst (frame_movement movement self) < 0)%Q)
    /\ (PhysicsEntity.down (PhysicsEntity.collisions self') = true ->
        (0 < snd (frame_movement movement self))%Q)
    /\ (PhysicsEntity.up (PhysicsEntity.collisions self') = true ->
        (snd (frame_movement movement self) < 0)%Q)
    /\ PhysicsEntity.right (PhysicsEntity.collisions self')
       && PhysicsEntity.left (PhysicsEntity.collisions self') = false
    /\ PhysicsEntity.down (PhysicsEntity.collisions self')
       && PhysicsEntity.up (PhysicsEntity.collisions self') = false.
Proof.
  intros Hts.
  destruct (Update_total tm movement self Hts) as (rx & ry & _ & _ & Hrun).
  cbv zeta in Hrun. set (fm := frame_movement movement self) in *.
  eexists. split; [exact Hrun|]. rewrite settled_collisions.
  set (e1 := moved_x fm self).
  set (e2 := resolved_x fm rx e1).
  set (e3 := moved_y fm e2).
  destruct (collide_x_contact (fst fm) rx rx (PhysicsEntity.Rect e1, e1)
              (incl_refl _)) as [Hr Hl];
    try (cbn; discriminate).
  destruct (collide_y_right_left (snd fm) ry (PhysicsEntity.Rect e3, e3))
    as [Er El].
  destruct (collide_x_up_down (fst fm) rx (PhysicsEntity.Rect e1, e1))
    as [Eu Ed].
  destruct (collide_y_contact (snd fm) ry ry (PhysicsEntity.Rect e3, e3)
              (incl_refl _)) as [Hd Hu].
  { cbn [snd fst]. unfold e3, moved_y. cbn [PhysicsEntity.collisions
      PhysicsEntity.set_pos]. fold e2. unfold e2 at 1, resolved_x.
    rewrite Ed. cbn. discriminate. }
  { cbn [snd fst]. unfold e3, moved_y. cbn [PhysicsEntity.collisions
      PhysicsEntity.set_pos]. fold e2. unfold e2 at 1, resolved_x.
    rewrite Eu. cbn. discriminate. }
  fold (resolved_y fm ry e3) in Hd, Hu, Er, El.
  cbn [snd] in Er, El. unfold e3 at 2 in Er. unfold e3 at 2 in El.
  unfold moved_y in Er, El.
  cbn [PhysicsEntity.collisions PhysicsEntity.set_pos] in Er, El.
  fold (resolved_x fm rx e1) in Hr, Hl. fold e2 in Hr, Hl.
  assert (Hright : PhysicsEntity.right
                     (PhysicsEntity.collisions (resolved_y fm ry e3)) = true
                   -> (0 < fst fm)%Q).
  { rewrite Er. intros H. now destruct (Hr H). }
  assert (Hleft : PhysicsEntity.left
                    (PhysicsEntity.collisions (resolved_y fm ry e3)) = true
                  -> (fst fm < 0)%Q).
  { rewrite El. intros H. now destruct (Hl H). }
  assert (Hdown : PhysicsEntity.down
                    (PhysicsEntity.collisions (resolved_y fm ry e3)) = true
                  -> (0 < snd fm)%Q).
  { intros H. now destruct (Hd H). }
  assert (Hup : PhysicsEntity.up
                  (PhysicsEntity.collisions (resolved_y fm ry e3)) = true
                -> (snd fm < 0)%Q).
  { intros H. now destruct (Hu H). }
  repeat (split; [assumption|]).
  clear - Hright Hleft Hdown Hup. split.
  - destruct (PhysicsEntity.right _) eqn:A, (PhysicsEntity.left _) eqn:B;
      try reflexivity.
    specialize (Hright eq_refl). specialize (Hleft eq_refl). lra.
  - destruct (PhysicsEntity.down _) eqn:A, (PhysicsEntity.up _) eqn:B;
      try reflexivity.
    specialize (Hdown eq_refl). specialize (Hup eq_refl). lra.
Qed.

(** A body driven into the tile to its right reports [right] alone. *)
Lemma Update_flags_directional_witness :
  Tilemap.tile_size Examples.two_tiles <> 0
  /\ exists self',
       PhysicsEntity.Update Examples.two_tiles (0, 0)%Q
                            (Examples.small_body (10 # 1, 0)%Q)
       = (Py.Ok tt, self')
       /\ (PhysicsEntity.left (PhysicsEntity.collisions self') = true ->
           (fst (frame_movement (0, 0)%Q (Examples.small_body (10 # 1, 0)%Q))
            < 0)%Q)
       /\ PhysicsEntity.right (PhysicsEntity.collisions self')
          && PhysicsEntity.left (PhysicsEntity.collisions self') = false.
Proof.
  assert (H : Tilemap.tile_size Examples.two_tiles <> 0) by discriminate.
  split; [exact H|].
  destruct (Update_flags_directional Examples.two_tiles (0, 0)%Q
              (Examples.small_body (10 # 1, 0)%Q) H)
    as (self' & Hrun & _ & Hl & _ & _ & Hx & _).
  exists self'. split; [exact Hrun|]. split; [exact Hl|exact Hx].
Defined.

(** X6.  A collision flag reported by [Update] means contact: with
    [right] set the right edge of the entity's rectangle is the left edge
    of a solid tile of the grid, with [left] set its left edge is the
    right edge of one, with [down] set its bottom is the top of one and
    with [up] set its top is the bottom of one. *)
Theorem Update_flag_contact
        (tm : Tilemap.t) (movement : Q * Q) (self : PhysicsEntity.t) :
  Tilemap.tile_size tm <> 0 ->
  exists self',
    PhysicsEntity.Update tm movement self = (Py.Ok tt, self')
    /\ (PhysicsEntity.right (PhysicsEntity.collisions self') = true ->
        exists loc tile,
          In (loc, tile) (Tilemap.tilemap tm)
          /\ type_in (type tile) PHYSICS_TILES = true
          /\ Rect.right (PhysicsEntity.Rect self')
             = Rect.left (tile_rect (Tilemap.tile_size tm) (pos tile)))
    /\ (PhysicsEntity.left (PhysicsEntity.collisions self') = true ->
        exists loc tile,
          In (loc, tile) (Tilemap.tilemap tm)
          /\ type_in (type tile) PHYSICS_TILES = true
          /\ Rect.left (PhysicsEntity.Rect self')
             = Rect.right (tile_rect (Tilemap.tile_size tm) (pos tile)))
    /\ (PhysicsEntity.down (PhysicsEntity.collisions self') = true ->
        exists loc tile,
          In (loc, tile) (Tilemap.tilemap tm)
          /\ type_in (type tile) PHYSICS_TILES = true
          /\ Rect.bottom (PhysicsEntity.Rect self')
             = Rect.top (tile_rect (Tilemap.tile_size tm) (pos tile)))
    /\ (PhysicsEntity.up (PhysicsEntity.collisions self') = true ->
        exists loc tile,
          In (loc, tile) (Tilemap.tilemap tm)
          /\ type_in (type tile) PHYSICS_TILES = true
          /\ Rect.top (PhysicsEntity.Rect self')
             = Rect.bottom (tile_rect (Tilemap.tile_size tm) (pos tile))).
Proof.
  intros Hts.
  destruct (Update_total tm movement self Hts) as (rx & ry & Hqx & Hqy & Hrun).
  cbv zeta in Hrun, Hqx, Hqy. set (fm := frame_movement movement self) in *.
  eexists. split; [exact Hrun|]. rewrite settled_collisions, settled_Rect.
  set (e1 := moved_x fm self) in *.
  set (e2 := resolved_x fm rx e1) in *.
  set (e3 := moved_y fm e2) in *.
  destruct (collide_x_contact (fst fm) rx rx (PhysicsEntity.Rect e1, e1)
              (incl_refl _)) as [Hr Hl];
    try (cbn; discriminate).
  destruct (collide_y_right_left (snd fm) ry (PhysicsEntity.Rect e3, e3))
    as [Er El].
  destruct (collide_x_up_down (fst fm) rx (PhysicsEntity.Rect e1, e1))
    as [Eu Ed].
  destruct (collide_y_contact (snd fm) ry ry (PhysicsEntity.Rect e3, e3)
              (incl_refl _)) as [Hd Hu].
  { cbn [snd fst]. unfold e3, moved_y. cbn [PhysicsEntity.collisions
      PhysicsEntity.set_pos]. fold e2. unfold e2 at 1, resolved_x.
    rewrite Ed. cbn. discriminate. }
  { cbn [snd fst]. unfold e3, moved_y. cbn [PhysicsEntity.collisions
      PhysicsEntity.set_pos]. fold e2. unfold e2 at 1, resolved_x.
    rewrite Eu. cbn. discriminate. }
  rewrite collide_x_tracks in Hr, Hl. rewrite collide_y_tracks in Hd, Hu.
  fold (resolved_y fm ry e3) in Hd, Hu, Er, El.
  cbn [snd] in Er, El. unfold e3 at 2 in Er. unfold e3 at 2 in El.
  unfold moved_y in Er, El.
  cbn [PhysicsEntity.collisions PhysicsEntity.set_pos] in Er, El.
  fold (resolved_x fm rx e1) in Hr, Hl. fold e2 in Hr, Hl.
  destruct (y_pass_column fm ry e2) as [Hx Hw]. fold e3 in Hx, Hw.
  split; [|split; [|split]].
  - rewrite Er. intros H. destruct (Hr H) as (_ & R & HR & Hedge).
    destruct (Physics_Rects_Around_solid tm _ rx R Hqx HR)
      as (loc & tile & Hin & Hsolid & ->).
    exists loc, tile. split; [exact Hin|]. split; [exact Hsolid|].
    rewrite <- Hedge. unfold Rect.right. now rewrite Hx, Hw.
  - rewrite El. intros H. destruct (Hl H) as (_ & R & HR & Hedge).
    destruct (Physics_Rects_Around_solid tm _ rx R Hqx HR)
      as (loc & tile & Hin & Hsolid & ->).
    exists loc, tile. split; [exact Hin|]. split; [exact Hsolid|].
    rewrite <- Hedge. unfold Rect.left. now rewrite Hx.
  - intros H. destruct (Hd H) as (_ & R & HR & Hedge).
    destruct (Physics_Rects_Around_solid tm _ ry R Hqy HR)
      as (loc & tile & Hin & Hsolid & ->).
    exists loc, tile. split; [exact Hin|]. split; [exact Hsolid|].
    exact Hedge.
  - intros H. destruct (Hu H) as (_ & R & HR & Hedge).
    destruct (Physics_Rects_Around_solid tm _ ry R Hqy HR)
      as (loc & tile & Hin & Hsolid & ->).
    exists loc, tile. split; [exact Hin|]. split; [exact Hsolid|].
    exact Hedge.
Qed.

Lemma Update_flag_contact_witness :
  Tilemap.tile_size Examples.two_tiles <> 0
  /\ exists self',
       PhysicsEntity.Update Examples.two_tiles (0, 0)%Q
                            (Examples.small_body (10 # 1, 0)%Q)
       = (Py.Ok tt, self')
       /\ (PhysicsEntity.right (PhysicsEntity.collisions self') = true ->
           exists loc tile,
             In (loc, tile) (Tilemap.tilemap Examples.two_tiles)
             /\ type_in (type tile) PHYSICS_TILES = true
             /\ Rect.right (PhysicsEntity.Rect self')
                = Rect.left (tile_rect 16 (pos tile))).
Proof.
  assert (H : Tilemap.tile_size Examples.two_tiles <> 0) by discriminate.
  split; [exact H|].
  destruct (Update_flag_contact Examples.two_tiles (0, 0)%Q
              (Examples.small_body (10 # 1, 0)%Q) H)
    as (self' & Hrun & Hr & _).
  exists self'. split; [exact Hrun|exact Hr].
Defined.

(** The flag of the witness is indeed raised, and the body stands at 8,
    flush with the tile that starts at 16. *)
Example Update_contact_example :
  exists self',
    PhysicsEntity.Update Examples.two_tiles (0, 0)%Q
                         (Examples.small_body (10 # 1, 0)%Q)
    = (Py.Ok tt, self')
    /\ PhysicsEntity.right (PhysicsEntity.collisions self') = true
    /\ Rect.right (PhysicsEntity.Rect self') = 16.
Proof. eexists. split; [vm_compute; reflexivity|]. split; reflexivity. Qed.

(** X7.  On a map of non-zero tile size without solid tiles [Update] is a
    free flight: it returns, the position advances by exactly the frame
    movement (input plus velocity), no flag is set, the horizontal
    velocity is kept, the vertical one gains 0.1 up to the cap of 5, the
    last movement is the input and the size is unchanged. *)
Theorem Update_free_flight
        (tm : Tilemap.t) (movement : Q * Q) (self : PhysicsEntity.t) :
  Tilemap.tile_size tm <> 0 ->
  no_solids tm ->
  exists self',
    PhysicsEntity.Update tm movement self = (Py.Ok tt, self')
    /\ PhysicsEntity.pos self'
       = ((fst (PhysicsEntity.pos self)
           + (fst movement + fst (PhysicsEntity.velocity self)))%Q,
          (snd (PhysicsEntity.pos self)
           + (snd movement + snd (PhysicsEntity.velocity self)))%Q)
    /\ PhysicsEntity.collisions self'
       = PhysicsEntity.mkFlags false false false false
    /\ PhysicsEntity.velocity self'
       = (fst (PhysicsEntity.velocity self),
          Py.min 5 (snd (PhysicsEntity.velocity self) + (1 # 10))%Q)
    /\ PhysicsEntity.last_movement self' = movement
    /\ PhysicsEntity.size self' = PhysicsEntity.size self.
Proof.
  intros Hts Hns. eexists. split.
  - apply (Update_phases tm movement self [] []);
      now apply Physics_Rects_Around_no_solids.
  - unfold resolved_y, resolved_x, moved_y, moved_x, frame_movement, settled.
    cbn [fold_left snd fst PhysicsEntity.set_pos PhysicsEntity.set_collisions
         PhysicsEntity.pos PhysicsEntity.collisions PhysicsEntity.velocity
         PhysicsEntity.size PhysicsEntity.last_movement PhysicsEntity.flip].
    destruct (Py.ltb 0 (fst movement)), (Py.ltb (fst movement) 0);
      cbn; repeat split; reflexivity.
Qed.

Lemma Update_free_flight_witness :
  Tilemap.tile_size (Tilemap.init 16) <> 0
  /\ no_solids (Tilemap.init 16)
  /\ exists self',
       PhysicsEntity.Update (Tilemap.init 16) (2 # 1, 0)%Q
                            (Examples.small_body (0, 3 # 1)%Q)
       = (Py.Ok tt, self')
       /\ PhysicsEntity.pos self' = ((0 + ((2 # 1) + 0))%Q, (0 + (0 + (3 # 1)))%Q)
       /\ PhysicsEntity.velocity self'
          = (0%Q, Py.min 5 ((3 # 1) + (1 # 10))%Q).
Proof.
  assert (H : Tilemap.tile_size (Tilemap.init 16) <> 0) by discriminate.
  assert (Hn : no_solids (Tilemap.init 16)) by (intros loc tile []).
  split; [exact H|]. split; [exact Hn|].
  destruct (Update_free_flight (Tilemap.init 16) (2 # 1, 0)%Q
              (Examples.small_body (0, 3 # 1)%Q) H Hn)
    as (self' & Hrun & Hpos & _ & Hvel & _).
  exists self'. split; [exact Hrun|]. split; [exact Hpos|exact Hvel].
Defined.

(** X8.  On a map of tile size zero [Update] raises [ZeroDivisionError]
    at its first spatial query, after the horizontal step: the entity is
    left with its flags cleared and its x coordinate advanced by the
    frame movement, everything else as it was. *)
Theorem Update_zero_tile_size
        (tm : Tilemap.t) (movement : Q * Q) (self : PhysicsEntity.t) :
  Tilemap.tile_size tm = 0 ->
  exists self',
    PhysicsEntity.Update tm movement self
    = (Py.Raise Py.ZeroDivisionError, self')
    /\ PhysicsEntity.pos self'
       = ((fst (PhysicsEntity.pos self)
           + (fst movement + fst (PhysicsEntity.velocity self)))%Q,
          snd (PhysicsEntity.pos self))
    /\ PhysicsEntity.collisions self'
       = PhysicsEntity.mkFlags false false false false
    /\ PhysicsEntity.velocity self' = PhysicsEntity.velocity self
    /\ PhysicsEntity.flip self' = PhysicsEntity.flip self
    /\ PhysicsEntity.last_movement self' = PhysicsEntity.last_movement self
    /\ PhysicsEntity.size self' = PhysicsEntity.size self.
Proof.
  intros Hts. eexists. split.
  - unfold PhysicsEntity.Update, Py.bind, Py.modify, Py.get, Py.lift.
    rewrite (Physics_Rects_Around_zero _ _ Hts). reflexivity.
  - cbn. repeat split; reflexivity.
Qed.

Lemma Update_zero_tile_size_witness :
  Tilemap.tile_size (Tilemap.init 0) = 0
  /\ exists self',
       PhysicsEntity.Update (Tilemap.init 0) (2 # 1, 0)%Q
                            (Examples.small_body (0, 3 # 1)%Q)
       = (Py.Raise Py.ZeroDivisionError, self')
       /\ PhysicsEntity.pos self' = ((0 + ((2 # 1) + 0))%Q, 0%Q).
Proof.
  split; [reflexivity|].
  destruct (Update_zero_tile_size (Tilemap.init 0) (2 # 1, 0)%Q
              (Examples.small_body (0, 3 # 1)%Q) eq_refl)
    as (self' & Hrun & Hpos & _).
  exists self'. split; [exact Hrun|exact Hpos].
Defined.



(* ================================================================== *)
(** * The editor's place and remove actions, cell by cell *)
(* ================================================================== *)

Section DictLaws.
Import Py.
Variable V : Type.
Implicit Types (d : dict V) (k : string) (v : V).

Lemma dict_get_set_eq k v d : dict_get k (dict_set k v d) = Some v.
Proof.
  induction d as [|[k1 v1] d IH]; cbn [dict_set dict_get].
  - now rewrite String.eqb_refl.
  - destruct (String.eqb k1 k) eqn:E; cbn [dict_get]; now rewrite E.
Qed.

Lemma dict_get_set_neq k k' v d :
  k' <> k -> dict_get k' (dict_set k v d) = dict_get k' d.
Proof.
  intros Hne. induction d as [|[k1 v1] d IH]; cbn [dict_set dict_get].
  - apply String.eqb_neq in Hne. rewrite String.eqb_sym. now rewrite Hne.
  - destruct (String.eqb k1 k) eqn:E; cbn [dict_get].
    + apply String.eqb_eq in E. subst k1.
      assert (E' : String.eqb k k' = false)
        by (apply String.eqb_neq; congruence).
      now rewrite E'.
    + now rewrite IH.
Qed.



Lemma dict_set_length_cases k v d :
  List.length (dict_set k v d)
  = if dict_mem k d then List.length d else S (List.length d).
Proof.
  unfold dict_mem.
  induction d as [|[k1 v1] d IH]; cbn [dict_set dict_get List.length];
    [reflexivity|].
  destruct (String.eqb k1 k); [reflexivity|].
  cbn [List.length]. rewrite IH. now destruct (dict_get k d).
Qed.

End DictLaws.

(** X9.  A left click on cell [p] stores the chosen tile under the key of
    [p], with [p] as its position, replacing whatever the cell held.  The
    records of all other cells, the decorations and the tile size are
    untouched, and the grid grows by one entry exactly when the cell was
    empty. *)
Theorem Editor_place_cell
        (tm : Tilemap.t) (p : Z * Z) (ty : string) (v : Z) :
  Py.dict_get (loc_key p) (Tilemap.tilemap (Editor.place p ty v tm))
  = Some (mkTile ty v p)
  /\ (forall q, q <> p ->
        Py.dict_get (loc_key q) (Tilemap.tilemap (Editor.place p ty v tm))
        = Py.dict_get (loc_key q) (Tilemap.tilemap tm))
  /\ Tilemap.offgrid_tiles (Editor.place p ty v tm) = Tilemap.offgrid_tiles tm
  /\ Tilemap.tile_size (Editor.place p ty v tm) = Tilemap.tile_size tm
  /\ List.length (Tilemap.tilemap (Editor.place p ty v tm))
     = if Py.dict_mem (loc_key p) (Tilemap.tilemap tm)
       then List.length (Tilemap.tilemap tm)
       else S (List.length (Tilemap.tilemap tm)).
Proof.
  destruct tm as [ts g og]. unfold Editor.place, Tilemap.set_tilemap.
  cbn [Tilemap.tilemap Tilemap.offgrid_tiles Tilemap.tile_size].
  split; [apply dict_get_set_eq|].
  split; [|split; [reflexivity|split; [reflexivity|apply dict_set_length_cases]]].
  intros q Hq. apply dict_get_set_neq.
  intros Hk. apply Hq. now apply loc_key_inj_pair.
Qed.



(** X11.  Whatever sequence of place, remove and add-decoration actions
    the editor performs on an empty map, the grid it builds has distinct
    keys, keeps every record under the key of its own position, and the
    tile size is the one the map was created with; so each grid record
    can be found again from the cell it was placed at. *)
Theorem Editor_build_grid_invariant (tile_size : Z) (ops : list Editor.op) :
  Py.dict_wf (Tilemap.tilemap (Editor.build tile_size ops))
  /\ grid_consistent (Editor.build tile_size ops)
  /\ Tilemap.tile_size (Editor.build tile_size ops) = tile_size
  /\ forall loc tile,
       In (loc, tile) (Tilemap.tilemap (Editor.build tile_size ops)) ->
       Py.dict_get (loc_key (pos tile))
                   (Tilemap.tilemap (Editor.build tile_size ops))
       = Some tile.
Proof.
  destruct (Editor_build_invariant tile_size ops) as [Hwf Hcons].
  split; [exact Hwf|]. split; [exact Hcons|]. split.
  - clear Hwf Hcons. unfold Editor.build.
    assert (H : Tilemap.tile_size (Tilemap.init tile_size) = tile_size)
      by reflexivity.
    revert H. generalize (Tilemap.init tile_size).
    induction ops as [|o ops IH]; intros tm Htm; cbn [fold_left];
      [exact Htm|].
    apply IH. rewrite <- Htm. destruct tm as [ts g og].
    destruct o as [p ty v|p|tile]; cbn [Editor.apply]; [reflexivity| |
      reflexivity].
    unfold Editor.remove. now destruct (Py.dict_mem _ _).
  - intros loc tile Hin. rewrite <- (Hcons loc tile Hin).
    now apply In_dict_get.
Qed.
